(** * Business hours: normalisation of weekly windows and agent status

    A shallow embedding of
    [apps/meteor/app/livechat/server/business-hour/AbstractBusinessHour.ts]:
    the [AbstractBusinessHourType] class (saving a business hour, converting
    its work hours to the UTC and cron representations) and the
    [AbstractBusinessHourBehavior] class (the hooks that keep the livechat
    status of agents in line with the business hours).

    All times are counted in whole minutes.  The origin of the time line is a
    Sunday 00:00 UTC, so that the day of the week of a civil time [c] is
    [(c / 1440) mod 7] with 0 for Sunday, as in moment's [en] locale. *)

From Stdlib Require Import ZArith QArith Qround Lia String Ascii List Bool.
From stdpp Require Import base option list gmap strings.

Local Open Scope Z_scope.

(** ** The part of moment and moment-timezone the class uses *)

Module Moment.

Definition minutesPerDay : Z := 1440.
Definition minutesPerWeek : Z := 10080.

Definition weekdays : list string :=
  ["Sunday"; "Monday"; "Tuesday"; "Wednesday"; "Thursday"; "Friday"; "Saturday"].

(** The token [dddd] of a civil day number. *)
Definition weekdayName (d : Z) : string := nth (Z.to_nat d) weekdays EmptyString.

Definition digitChar (n : Z) : ascii := ascii_of_nat (Z.to_nat (48 + n)).

Definition digitValue (c : ascii) : option Z :=
  let n := Z.of_nat (nat_of_ascii c) in
  if (48 <=? n) && (n <=? 57) then Some (n - 48) else None.

(** Decimal digits of a natural number, most significant first. *)
Fixpoint decimalDigits (fuel : nat) (n : Z) (acc : string) : string :=
  match fuel with
  | O => acc
  | S fuel' =>
      let acc' := String (digitChar (n mod 10)) acc in
      if n <? 10 then acc' else decimalDigits fuel' (n / 10) acc'
  end.

Definition decimal (n : Z) : string := decimalDigits (S (Z.to_nat n)) n EmptyString.

(** moment's [zeroFill (n, 2)]: at least two digits. *)
Definition zeroFill2 (n : Z) : string :=
  if n <? 10 then "0" +:+ decimal n else decimal n.

(** How the fields of a moment are displayed: in UTC, in the zone of the
    server, or in a named zone of moment-timezone. *)
Inductive Mode : Type :=
| InUtc
| InLocal
| InZone (name : string).

(** A moment: an invalid date, or an instant on the UTC time line together
    with the mode its fields are displayed in. *)
Inductive Moment : Type :=
| InvalidDate
| At (instant : Z) (mode : Mode).

Definition instantOf (m : Moment) : option Z :=
  match m with
  | InvalidDate => None
  | At t _ => Some t
  end.

Definition utc (m : Moment) : Moment :=
  match m with
  | InvalidDate => InvalidDate
  | At t _ => At t InUtc
  end.

Definition clone (m : Moment) : Moment := m.

Definition isBefore (a b : Moment) : bool :=
  match a, b with
  | At s _, At t _ => s <? t
  | _, _ => false
  end.

Definition isSame (a b : Moment) : bool :=
  match a, b with
  | At s _, At t _ => s =? t
  | _, _ => false
  end.

(** The sign, hours and minutes of the token [Z]. *)
Definition formatOffset (off : Z) : string :=
  (if off <? 0 then "-" else "+")
    +:+ zeroFill2 (Z.abs off / 60) +:+ ":" +:+ zeroFill2 (Z.abs off mod 60).

(** The tokens the class uses: [dddd], [HH], [mm] and [Z]; every other
    character of a format stands for itself. *)
Fixpoint formatTokens (civil off : Z) (fmt : string) : string :=
  match fmt with
  | String "d" (String "d" (String "d" (String "d" rest))) =>
      weekdayName ((civil / minutesPerDay) mod 7) +:+ formatTokens civil off rest
  | String "H" (String "H" rest) =>
      zeroFill2 ((civil mod minutesPerDay) / 60) +:+ formatTokens civil off rest
  | String "m" (String "m" rest) =>
      zeroFill2 (civil mod 60) +:+ formatTokens civil off rest
  | String "Z" rest => formatOffset off +:+ formatTokens civil off rest
  | String c rest => String c (formatTokens civil off rest)
  | EmptyString => EmptyString
  end.

(** *** Reading an input against the format [dddd:HH:mm]

    moment reads the tokens of the format one after the other, each in what
    the tokens before it have left of the input, and forgives what it does
    not find. *)

(** The lower case of a letter of the alphabet; the names of the days are
    compared without regard to case. *)
Definition lowerCase (c : ascii) : ascii :=
  let n := nat_of_ascii c in
  if (65 <=? n)%nat && (n <=? 90)%nat then ascii_of_nat (n + 32) else c.

(** What follows [name] in [s], where [s] starts with it. *)
Fixpoint afterPrefix (name s : string) : option string :=
  match name, s with
  | EmptyString, _ => Some s
  | String a name', String b s' =>
      if Ascii.eqb (lowerCase a) (lowerCase b) then afterPrefix name' s'
      else None
  | String _ _, EmptyString => None
  end.

(** The token [dddd]: the name of a day at the start of the input, in
    full, or else its first three letters, or else its first two. *)
Definition afterWeekday (name s : string) : option string :=
  match afterPrefix name s with
  | Some rest => Some rest
  | None =>
      match afterPrefix (String.substring 0 3 name) s with
      | Some rest => Some rest
      | None => afterPrefix (String.substring 0 2 name) s
      end
  end.

Fixpoint readWeekdayFrom (names : list string) (i : Z) (s : string)
    : option (Z * string) :=
  match names with
  | [] => None
  | name :: names' =>
      match afterWeekday name s with
      | Some rest => Some (i, rest)
      | None => readWeekdayFrom names' (i + 1) s
      end
  end.

Definition readWeekday (s : string) : option (Z * string) :=
  readWeekdayFrom weekdays 0 s.

(** The [:] of the format: what follows the first colon of the input, or
    the input itself where it has none. *)
Fixpoint breakColon (s : string) : option (string * string) :=
  match s with
  | EmptyString => None
  | String c rest =>
      if Ascii.eqb c ":" then Some (EmptyString, rest)
      else '(a, b) ← breakColon rest; Some (String c a, b)
  end.

Definition afterColon (s : string) : string :=
  match breakColon s with
  | Some (_, rest) => rest
  | None => s
  end.

(** The tokens [HH] and [mm]: the first digit of the input, with the digit
    that follows it if there is one. *)
Fixpoint readDigits (s : string) : option (Z * string) :=
  match s with
  | EmptyString => None
  | String a rest =>
      match digitValue a with
      | None => readDigits rest
      | Some x =>
          match rest with
          | EmptyString => Some (x, rest)
          | String b rest' =>
              match digitValue b with
              | Some y => Some (10 * x + y, rest')
              | None => Some (x, rest)
              end
          end
      end
  end.

(** What the three tokens have read. *)
Record Fields : Type := {
  weekdayField : option Z;
  hourField : option Z;
  minuteField : option Z;
}.

Definition readFields (s : string) : Fields :=
  let '(d, s1) :=
    match readWeekday s with
    | Some (d, rest) => (Some d, rest)
    | None => (None, s)
    end in
  let s2 := afterColon s1 in
  let '(h, s3) :=
    match readDigits s2 with
    | Some (h, rest) => (Some h, rest)
    | None => (None, s2)
    end in
  let s4 := afterColon s3 in
  {| weekdayField := d; hourField := h; minuteField := fst <$> readDigits s4 |}.

(** The date that the fields make: none, a minute of the current week
    (where a day is named), or a minute of the current day.  There is no
    date where no token has read anything, where the hour is above 24, or
    is 24 with minutes, or the minutes are above 59, and where the hour 24
    moves the date off the day that is named. *)
Inductive Reading : Type :=
| NoDate
| InWeek (minute : Z)
| InDay (minute : Z).

Definition readDayTime (s : string) : Reading :=
  let f := readFields s in
  let h := default 0 (hourField f) in
  let m := default 0 (minuteField f) in
  match weekdayField f, hourField f, minuteField f with
  | None, None, None => NoDate
  | _, _, _ =>
      if (24 <? h) || (h =? 24) && negb (m =? 0) || (59 <? m) then NoDate
      else
        match weekdayField f with
        | Some d =>
            if h =? 24 then NoDate
            else InWeek (d * minutesPerDay + h * 60 + m)
        | None => InDay (h * 60 + m)
        end
  end.

(** What the process reads from its surroundings.  The time zone data of
    moment-timezone: [zoneParse name c] is the UTC offset, in minutes east of
    Greenwich, at which the zone [name] reads the civil time [c], and
    [zoneUtcOffset name t] the offset the zone has at the instant [t].
    The zone of the server, in the same two ways: [serverParse c] and
    [serverUtcOffset t].  [now] is the current instant.
    [repeatingFraction a] holds the digits that [String] prints after the
    decimal point of [a / 60] when that quotient has no finite decimal
    expansion. *)
Record Host : Type := {
  zoneParse : string → Z → Z;
  zoneUtcOffset : string → Z → Z;
  serverParse : Z → Z;
  serverUtcOffset : Z → Z;
  now : Z;
  repeatingFraction : Z → string;
}.

(** [moment().utcOffset()]: the offset of the server now. *)
Definition utcOffset (host : Host) : Z := serverUtcOffset host (now host).

(** The offset that the fields of a moment at [t] are displayed with. *)
Definition offsetOf (host : Host) (mode : Mode) (t : Z) : Z :=
  match mode with
  | InUtc => 0
  | InLocal => serverUtcOffset host t
  | InZone name => zoneUtcOffset host name t
  end.

Definition format (host : Host) (m : Moment) (fmt : string) : string :=
  match m with
  | InvalidDate => "Invalid date"
  | At t mode => formatTokens (t + offsetOf host mode t) (offsetOf host mode t) fmt
  end.

(** An input that names a day is completed with the days of the current
    week of the server: the civil time of the Sunday 00:00 that starts
    it.  An input that names none is completed with the current day, in
    UTC or of the server. *)
Definition weekStart (host : Host) : Z :=
  (now host + utcOffset host) / minutesPerWeek * minutesPerWeek.

Definition todayUtc (host : Host) : Z :=
  now host / minutesPerDay * minutesPerDay.

Definition todayLocal (host : Host) : Z :=
  (now host + utcOffset host) / minutesPerDay * minutesPerDay.

Definition civilOf (host : Host) (today : Z) (r : Reading) : option Z :=
  match r with
  | NoDate => None
  | InWeek w => Some (weekStart host + w)
  | InDay m => Some (today + m)
  end.

(** [moment.tz (input, 'dddd:HH:mm', zone)]: the input is read as in UTC
    and the civil time is then taken as one of the zone. *)
Definition tz (host : Host) (input zone : string) : Moment :=
  match civilOf host (todayUtc host) (readDayTime input) with
  | None => InvalidDate
  | Some civil => At (civil - zoneParse host zone civil) (InZone zone)
  end.

(** [moment.tz (zone)]: the current instant, displayed in the zone. *)
Definition tzNow (host : Host) (zone : string) : Moment :=
  At (now host) (InZone zone).

(** [moment (input, 'dddd:HH:mm')], a civil time of the server. *)
Definition local (host : Host) (input : string) : Moment :=
  match civilOf host (todayLocal host) (readDayTime input) with
  | None => InvalidDate
  | Some civil => At (civil - serverParse host civil) InLocal
  end.

(** [moment.utc (input, 'dddd:HH:mm')] *)
Definition parseUtc (host : Host) (input : string) : Moment :=
  match civilOf host (todayUtc host) (readDayTime input) with
  | None => InvalidDate
  | Some civil => At civil InUtc
  end.

(** [m.add (n, 'hours')]: a fraction of an hour is kept, the sum is rounded
    to the unit of the time line; the mode of the moment stays. *)
Definition addHours (n : Q) (m : Moment) : Moment :=
  match m with
  | InvalidDate => InvalidDate
  | At t mode => At (t + Qfloor (n * (60 # 1) + (1 # 2))%Q) mode
  end.

(** [String (a / 60)] for a whole number of minutes [a]: the sign, the
    whole hours and, unless the division is exact, a point and the
    fraction.  A remainder that is a multiple of 3 minutes gives a whole
    number of hundredths, printed without a trailing zero. *)
Definition hundredths (r : Z) : string :=
  let h := r / 3 * 5 in
  if h mod 10 =? 0 then decimal (h / 10) else zeroFill2 h.

Definition fraction (host : Host) (a : Z) : string :=
  let r := a mod 60 in
  if r =? 0 then EmptyString
  else "." +:+ (if r mod 3 =? 0 then hundredths r else repeatingFraction host a).

Definition hoursToString (host : Host) (off : Z) : string :=
  let a := Z.abs off in
  (if off <? 0 then "-" else EmptyString) +:+ decimal (a / 60) +:+ fraction host a.

End Moment.

(** ** The data of a business hour *)

(** A value of a property that the code only tests for truth. *)
Inductive JsValue : Type :=
| JsUndefined
| JsNull
| JsBoolean (b : bool)
| JsNumber (n : Z)
| JsString (s : string).

Definition Boolean (v : JsValue) : bool :=
  match v with
  | JsUndefined | JsNull => false
  | JsBoolean b => b
  | JsNumber n => negb (n =? 0)
  | JsString s => negb (String.eqb s EmptyString)
  end.

(** [{ dayOfWeek, time }] *)
Record DayTime : Type := {
  dayOfWeek : string;
  time : string;
}.

(** The [start] and [finish] of a work hour: the string of the draft, or,
    once converted, the object [{ time, utc, cron }] whose [time] is the
    value the property had before. *)
Inductive HourValue : Type :=
| Plain (s : string)
| Converted (time : HourValue) (utc cron : DayTime).

(** The string a template literal makes of the value. *)
Definition toString (v : HourValue) : string :=
  match v with
  | Plain s => s
  | Converted _ _ _ => "[object Object]"
  end.

Record WorkHour : Type := {
  day : string;
  start : HourValue;
  finish : HourValue;
  open : bool;
}.

(** [ILivechatBusinessHour], with the properties the class reads.  [_id] is
    a string; a draft without identity carries the empty one, the only
    string that the test [if (businessHourData._id)] takes for false. *)
Record BusinessHour : Type := {
  _id : string;
  active : JsValue;
  timezone_name : string;
  workHours : list WorkHour;
}.

Definition set_active (v : JsValue) (b : BusinessHour) : BusinessHour :=
  {| _id := _id b; active := v; timezone_name := timezone_name b;
     workHours := workHours b |}.

Definition set_workHours (w : list WorkHour) (b : BusinessHour) : BusinessHour :=
  {| _id := _id b; active := active b; timezone_name := timezone_name b;
     workHours := w |}.

(** ** Computations that change an object and may throw *)

(** [Error (message)] *)
Definition Exn : Type := string.

(** A computation over a mutable object of type [S]: it returns or throws,
    and either way leaves the object as it has changed it so far. *)
Definition M (S A : Type) : Type := S → (Exn + A) * S.

Definition ret {S A} (a : A) : M S A := fun s => (inr a, s).
Definition throw {S A} (e : Exn) : M S A := fun s => (inl e, s).
Definition bind {S A B} (m : M S A) (k : A → M S B) : M S B :=
  fun s =>
    match m s with
    | (inl e, s') => (inl e, s')
    | (inr a, s') => k a s'
    end.
Definition get {S} : M S S := fun s => (inr s, s).
Definition put {S} (s : S) : M S unit := fun _ => (inr tt, s).
Definition when {S} (b : bool) (m : M S unit) : M S unit :=
  if b then m else ret tt.

#[export] Instance M_ret {S} : MRet (M S) := @ret S.
#[export] Instance M_bind {S} : MBind (M S) := fun A B k m => bind m k.

(** ** The collections behind the two classes *)

(** The writes the class asks of [LivechatBusinessHours]. *)
Inductive BusinessHourWrite : Type :=
| UpdateOne (id : string) (fields : BusinessHour)
| InsertOne (document : BusinessHour).

(** Modelled from the spec: the model [LivechatBusinessHours] of
    [@rocket.chat/models] is not among the sources.  It is the
    ScheduleRepository of the spec, a document store with [get], [upsert]
    and [delete] by identity: the documents by [_id], the writes it has
    been asked for, oldest first, and the identity it gives to a document
    inserted without one. *)
Record LivechatBusinessHours : Type := {
  documents : gmap string BusinessHour;
  writes : list BusinessHourWrite;
  createPk : gmap string BusinessHour → string;
}.

(** Modelled from the spec: [updateOne ({ _id }, { $set })] of the absent
    model; it sets the properties of the document with this identity, and
    changes no document when there is none. *)
Definition updateOne (id : string) (fields : BusinessHour)
    (r : LivechatBusinessHours) : LivechatBusinessHours :=
  {| documents :=
       match documents r !! id with
       | Some _ => <[id := fields]> (documents r)
       | None => documents r
       end;
     writes := writes r ++ [UpdateOne id fields];
     createPk := createPk r |}.

(** Modelled from the spec: [insertOne] of the absent model; the document
    is stored under a new identity, which is returned as [insertedId]. *)
Definition insertOne (document : BusinessHour)
    (r : LivechatBusinessHours) : string * LivechatBusinessHours :=
  let insertedId := createPk r (documents r) in
  (insertedId,
   {| documents :=
        <[insertedId :=
            {| _id := insertedId; active := active document;
               timezone_name := timezone_name document;
               workHours := workHours document |}]> (documents r);
      writes := writes r ++ [InsertOne document];
      createPk := createPk r |}).

(** ** AbstractBusinessHourType *)

Module AbstractBusinessHourType.
Import Moment.

Section WithHost.
Context (host : Host).

Definition formatDayOfTheWeekFromServerTimezoneAndUtcHour
    (utc : Moment) (fmt : string) : string :=
  format host
    (addHours (utcOffset host # 60)
       (local host (format host utc "dddd:HH:mm")))
    fmt.

Definition getUTCFromTimezone (timezone : option string) : string :=
  match timezone with
  | None => hoursToString host (utcOffset host)
  | Some name =>
      if String.eqb name EmptyString then hoursToString host (utcOffset host)
      else format host (tzNow host name) "Z"
  end.

(** The callback of [forEach] in [convertWorkHours], on one element. *)
Definition convertWorkHour (timezoneName : string) : M WorkHour unit :=
  hour ← get;
  let startUtc :=
    utc (tz host (day hour +:+ ":" +:+ toString (start hour)) timezoneName) in
  let finishUtc :=
    utc (tz host (day hour +:+ ":" +:+ toString (finish hour)) timezoneName) in
  when (open hour && isBefore finishUtc startUtc)
    (throw "error-business-hour-finish-time-before-start-time");;
  when (open hour && isSame startUtc finishUtc)
    (throw "error-business-hour-finish-time-equals-start-time");;
  hour ← get;
  put {| day := day hour;
         start := Converted (start hour)
           {| dayOfWeek := format host (clone startUtc) "dddd";
              time := format host (clone startUtc) "HH:mm" |}
           {| dayOfWeek := formatDayOfTheWeekFromServerTimezoneAndUtcHour startUtc "dddd";
              time := formatDayOfTheWeekFromServerTimezoneAndUtcHour startUtc "HH:mm" |};
         finish := finish hour;
         open := open hour |};;
  hour ← get;
  put {| day := day hour;
         start := start hour;
         finish := Converted (finish hour)
           {| dayOfWeek := format host (clone finishUtc) "dddd";
              time := format host (clone finishUtc) "HH:mm" |}
           {| dayOfWeek := formatDayOfTheWeekFromServerTimezoneAndUtcHour finishUtc "dddd";
              time := formatDayOfTheWeekFromServerTimezoneAndUtcHour finishUtc "HH:mm" |};
         open := open hour |}.

(** A computation on the element [i] of [workHours], which it changes in
    place; there is nothing to do where the array has no such element. *)
Definition onWorkHour (i : nat) (m : M WorkHour unit) : M BusinessHour unit :=
  fun businessHourData =>
    match workHours businessHourData !! i with
    | None => (inr tt, businessHourData)
    | Some hour =>
        let '(r, hour') := m hour in
        (r, set_workHours (<[i := hour']> (workHours businessHourData))
              businessHourData)
    end.

(** [workHours.forEach]: the callback on the elements at the indices below
    the length the array had at the call, in order, until one throws. *)
Fixpoint forEachWorkHour (indices : list nat) : M BusinessHour unit :=
  match indices with
  | [] => mret tt
  | i :: indices' =>
      businessHourData ← get;
      onWorkHour i (convertWorkHour (timezone_name businessHourData));;
      forEachWorkHour indices'
  end.

Definition convertWorkHours : M BusinessHour BusinessHour :=
  businessHourData ← get;
  forEachWorkHour (seq 0 (length (workHours businessHourData)));;
  get.

(** What [baseSaveBusinessHour] works on: the object the caller passes,
    which it changes in place, and the collection. *)
Record Saving : Type := {
  businessHourData : BusinessHour;
  BusinessHourRepository : LivechatBusinessHours;
}.

Definition onData {A} (m : M BusinessHour A) : M Saving A :=
  fun s =>
    let '(r, d) := m (businessHourData s) in
    (r, {| businessHourData := d;
           BusinessHourRepository := BusinessHourRepository s |}).

Definition onRepository {A}
    (f : LivechatBusinessHours → A * LivechatBusinessHours) : M Saving A :=
  fun s =>
    let '(a, r) := f (BusinessHourRepository s) in
    (inr a, {| businessHourData := businessHourData s;
               BusinessHourRepository := r |}).

Definition baseSaveBusinessHour : M Saving string :=
  onData (d ← get; put (set_active (JsBoolean (Boolean (active d))) d));;
  data ← onData convertWorkHours;
  if negb (String.eqb (_id data) EmptyString) then
    onRepository (fun r => (tt, updateOne (_id data) data r));;
    mret (_id data)
  else
    insertedId ← onRepository (insertOne data);
    mret insertedId.

End WithHost.
End AbstractBusinessHourType.

(** ** AbstractBusinessHourBehavior *)

Module AbstractBusinessHourBehavior.

(** [ILivechatAgentStatus], with the two members the class names. *)
Inductive ILivechatAgentStatus : Type :=
| AVAILABLE
| NOT_AVAILABLE.

(** Modelled from the spec: the documents of the model [Users] of
    [@rocket.chat/models], which is not among the sources.  The class names
    [statusDefault] and [livechatStatusSystemModified] in its query; the
    spec gives an agent a live status and a set of assigned schedules
    (here [businessHours], by identity). *)
Record User : Type := {
  statusLivechat : option ILivechatAgentStatus;
  statusDefault : option string;
  livechatStatusSystemModified : option bool;
  businessHours : gset string;
}.

(** The conditions and the properties that [changeAgentActiveStatus] passes
    to [setLivechatStatusIf]. *)
Inductive Condition : Type :=
| livechatStatusSystemModified_is (b : bool)
| statusDefault_ne (s : string).

Inductive ExtraField : Type :=
| livechatStatusSystemModified_set (b : bool).

(** The calls the class makes on [Users]. *)
Inductive UsersCall : Type :=
| Call_removeBusinessHoursFromAllUsers
| Call_isAgentWithinBusinessHours (agentId : string)
| Call_setLivechatStatusIf (agentId : string) (status : ILivechatAgentStatus)
    (conditions : list Condition) (extraFields : list ExtraField)
| Call_setLivechatStatus (agentId : string) (status : ILivechatAgentStatus)
| Call_addBusinessHourByAgentIds (agentIds : list string) (businessHourId : string).

(** The collection: the agents by [_id], and the calls received, oldest
    first. *)
Record Users : Type := {
  agents : gmap string User;
  calls : list UsersCall;
}.

Definition called (c : UsersCall) (agents' : gmap string User) (users : Users) : Users :=
  {| agents := agents'; calls := calls users ++ [c] |}.

Definition set_statusLivechat (status : ILivechatAgentStatus) (u : User) : User :=
  {| statusLivechat := Some status; statusDefault := statusDefault u;
     livechatStatusSystemModified := livechatStatusSystemModified u;
     businessHours := businessHours u |}.

Definition set_businessHours (b : gset string) (u : User) : User :=
  {| statusLivechat := statusLivechat u; statusDefault := statusDefault u;
     livechatStatusSystemModified := livechatStatusSystemModified u;
     businessHours := b |}.

Definition set_extraField (f : ExtraField) (u : User) : User :=
  match f with
  | livechatStatusSystemModified_set b =>
      {| statusLivechat := statusLivechat u; statusDefault := statusDefault u;
         livechatStatusSystemModified := Some b;
         businessHours := businessHours u |}
  end.

(** A condition of a query on a document: equality needs the property to be
    there, [$ne] also holds where it is missing. *)
Definition holds (u : User) (c : Condition) : bool :=
  match c with
  | livechatStatusSystemModified_is b =>
      bool_decide (livechatStatusSystemModified u = Some b)
  | statusDefault_ne s => negb (bool_decide (statusDefault u = Some s))
  end.

(** Modelled from the spec: [removeBusinessHoursFromAllUsers] of the absent
    model [Users], the [unassignAllSchedules] of the spec: it takes the
    business hours off every agent and forces no status value. *)
Definition removeBusinessHoursFromAllUsers (users : Users) : Users :=
  called Call_removeBusinessHoursFromAllUsers
    (set_businessHours ∅ <$> agents users) users.

(** Modelled from the spec: [setLivechatStatus] of the absent model
    [Users]; it writes the status of the agent. *)
Definition setLivechatStatus (agentId : string) (status : ILivechatAgentStatus)
    (users : Users) : Users :=
  called (Call_setLivechatStatus agentId status)
    (alter (set_statusLivechat status) agentId (agents users)) users.

(** Modelled from the spec: [setLivechatStatusIf] of the absent model
    [Users], the [setStatus (agentId, status, setByEngine, guardCondition)]
    of the spec, one conditional update: where the document of the agent
    meets every condition, the status and the extra properties are
    written; otherwise nothing is. *)
Definition setLivechatStatusIf (agentId : string) (status : ILivechatAgentStatus)
    (conditions : list Condition) (extraFields : list ExtraField)
    (users : Users) : Users :=
  called (Call_setLivechatStatusIf agentId status conditions extraFields)
    (match agents users !! agentId with
     | Some u =>
         if forallb (holds u) conditions
         then <[agentId :=
                  foldr set_extraField (set_statusLivechat status u) extraFields]>
                (agents users)
         else agents users
     | None => agents users
     end) users.

(** Modelled from the spec: [addBusinessHourByAgentIds] of the absent model
    [Users], the [assignSchedule] of the spec; the business hour is added
    to the set of each of the agents. *)
Definition addBusinessHourByAgentIds (agentIds : list string)
    (businessHourId : string) (users : Users) : Users :=
  called (Call_addBusinessHourByAgentIds agentIds businessHourId)
    (foldr
       (fun agentId =>
          alter
            (fun u => set_businessHours ({[businessHourId]} ∪ businessHours u) u)
            agentId)
       (agents users) agentIds) users.

Section WithBusinessHours.

(** [LivechatBusinessHours.findOneDefaultBusinessHour ()], and whether the
    business hour of an identity is active with the current time inside one
    of its open windows. *)
Context (findOneDefaultBusinessHour : option BusinessHour).
Context (openNow : string → bool).

(** Modelled from the spec: [filterBusinessHoursThatMustBeOpened] of
    [./Helper], which is not among the sources; of the business hours given
    it keeps those that are open now. *)
Definition filterBusinessHoursThatMustBeOpened
    (businessHours : list BusinessHour) : list string :=
  _id <$> filter (fun b => openNow (_id b) = true) businessHours.

(** Modelled from the spec: [isAgentWithinBusinessHours] of the absent model
    [Users], the [isWithinActiveWindow] of the spec: whether the agent is
    now inside an open window of one of its business hours. *)
Definition isAgentWithinBusinessHours (agentId : string) (users : Users)
    : bool * Users :=
  (match agents users !! agentId with
   | Some u => existsb openNow (elements (businessHours u))
   | None => false
   end,
   called (Call_isAgentWithinBusinessHours agentId) (agents users) users).

Definition onDisableBusinessHours (users : Users) : Users :=
  removeBusinessHoursFromAllUsers users.

Definition allowAgentChangeServiceStatus (agentId : string) (users : Users)
    : bool * Users :=
  isAgentWithinBusinessHours agentId users.

Definition changeAgentActiveStatus (agentId : string)
    (status : ILivechatAgentStatus) (users : Users) : Users :=
  setLivechatStatusIf agentId status
    [livechatStatusSystemModified_is true; statusDefault_ne "offline"]
    [livechatStatusSystemModified_set true] users.

Definition onNewAgentCreated (agentId : string) (users : Users) : Users :=
  match findOneDefaultBusinessHour with
  | None => users
  | Some defaultBusinessHour =>
      let businessHourToOpen :=
        filterBusinessHoursThatMustBeOpened [defaultBusinessHour] in
      if (length businessHourToOpen =? 0)%nat
      then setLivechatStatus agentId NOT_AVAILABLE users
      else addBusinessHourByAgentIds [agentId] (_id defaultBusinessHour) users
  end.

End WithBusinessHours.
End AbstractBusinessHourBehavior.

(** ** The tags field of the livechat forms *)

(** The component [Tags] that follows the two classes in the source: the
    two callbacks that change the list of tags, [removeTag] and
    [handleTagTextSubmit], and the handler it gives to the enterprise
    component.  A callback is modelled by the calls it makes, in order, on
    what the component receives: the [handler] of its parent, the toast
    dispatcher and the setters of its two states. *)
Module Tags.

(** A string of the component, as its UTF-16 code units. *)
Definition JSString : Type := list N.

(** The white space and the line terminators that [trim] removes. *)
Definition whiteSpace : list N :=
  [9; 10; 11; 12; 13; 32; 160; 5760; 8192; 8193; 8194; 8195; 8196; 8197;
   8198; 8199; 8200; 8201; 8202; 8232; 8233; 8239; 8287; 12288; 65279]%N.

Definition isWhiteSpace (c : N) : bool := bool_decide (c ∈ whiteSpace).

Fixpoint trimStart (s : JSString) : JSString :=
  match s with
  | [] => []
  | c :: s' => if isWhiteSpace c then trimStart s' else s
  end.

Definition trimEnd (s : JSString) : JSString :=
  reverse (trimStart (reverse s)).

Definition trim (s : JSString) : JSString := trimEnd (trimStart s).

(** [{ label, value }] *)
Record PaginatedTag : Type := {
  label : JSString;
  value : JSString;
}.

Inductive Call : Type :=
| handler (value : list JSString)
| dispatchToastMessage (type message : string)
| handleTagValue (value : JSString)
| handlePaginatedTagValue (value : list PaginatedTag).

(** The value of the state [tagValue] at the next render. *)
Fixpoint nextTagValue (tagValue : JSString) (calls : list Call) : JSString :=
  match calls with
  | [] => tagValue
  | handleTagValue v :: calls' => nextTagValue v calls'
  | _ :: calls' => nextTagValue tagValue calls'
  end.

Section WithProps.

(** The property [tags] (an array, the empty one by default, so that the
    tests [if (tags)] and [if (!tags)] never stop a callback) and the
    translation [t]. *)
Context (tags : list JSString).
Context (t : string → string).

Definition removeTag (tagToRemove : JSString) : list Call :=
  let tagsFiltered := filter (fun tag => tag ≠ tagToRemove) tags in
  [handler tagsFiltered].

Definition handleTagTextSubmit (tagValue : JSString) : list Call :=
  if bool_decide (tagValue = []) || bool_decide (trim tagValue = []) then
    [dispatchToastMessage "error" (t "Enter_a_tag"); handleTagValue []]
  else if bool_decide (tagValue ∈ tags) then
    [dispatchToastMessage "error" (t "Tag_already_exists")]
  else
    [handler (tags ++ [tagValue]); handleTagValue []].

(** The [onChange] of the text input and the [disabled] of the button. *)
Definition onChange (currentTarget_value : JSString) : list Call :=
  [handleTagValue currentTarget_value].

Definition disabled (tagValue : JSString) : bool := bool_decide (tagValue = []).

End WithProps.

(** The handler given to the enterprise component. *)
Definition paginatedHandler (tags : list PaginatedTag) : list Call :=
  [handler (label <$> tags); handlePaginatedTagValue tags].

End Tags.

(** ** Sample inputs *)

Module Samples.
Import Moment.

(** A server on UTC, in the third week of the time line, with
    Europe/Madrid one hour east of Greenwich. *)
Definition centralEuropean (zone : string) : Z :=
  if String.eqb zone "Europe/Madrid" then 60 else 0.

Definition serverOnUtc : Host :=
  {| zoneParse := fun zone _ => centralEuropean zone;
     zoneUtcOffset := fun zone _ => centralEuropean zone;
     serverParse := fun _ => 0;
     serverUtcOffset := fun _ => 0;
     now := 33240;
     repeatingFraction := fun _ => "3333333333333333" |}.

(** The same surroundings with the server two hours east. *)
Definition serverTwoHoursEast : Host :=
  {| zoneParse := fun zone _ => centralEuropean zone;
     zoneUtcOffset := fun zone _ => 120;
     serverParse := fun _ => 120;
     serverUtcOffset := fun _ => 120;
     now := 33240;
     repeatingFraction := fun _ => "3333333333333333" |}.

Definition monday : WorkHour :=
  {| day := "Monday"; start := Plain "09:00"; finish := Plain "17:00";
     open := true |}.

Definition sunday : WorkHour :=
  {| day := "Sunday"; start := Plain "00:30"; finish := Plain "08:00";
     open := true |}.

Definition tuesdayEmpty : WorkHour :=
  {| day := "Tuesday"; start := Plain "10:00"; finish := Plain "10:00";
     open := true |}.

Definition wednesdayClosed : WorkHour :=
  {| day := "Wednesday"; start := Plain "10:00"; finish := Plain "09:00";
     open := false |}.

Definition supportEU : BusinessHour :=
  {| _id := "support-eu"; active := JsBoolean true;
     timezone_name := "Europe/Madrid"; workHours := [monday] |}.

Definition nightShift : BusinessHour :=
  {| _id := "night-shift"; active := JsBoolean true;
     timezone_name := "Europe/Madrid"; workHours := [sunday] |}.

Definition brokenDraft : BusinessHour :=
  {| _id := "broken"; active := JsNumber 1;
     timezone_name := "Europe/Madrid";
     workHours := [monday; wednesdayClosed; tuesdayEmpty; sunday] |}.

Definition saturdayNight : DayTime :=
  {| dayOfWeek := "Saturday"; time := "23:30" |}.

(** A server five and a half hours east. *)
Definition serverInKolkata : Host :=
  {| zoneParse := fun _ _ => 330;
     zoneUtcOffset := fun _ _ => 330;
     serverParse := fun _ => 330;
     serverUtcOffset := fun _ => 330;
     now := 33240;
     repeatingFraction := fun _ => "3333333333333333" |}.

Definition emptyRepository : LivechatBusinessHours :=
  {| documents := ∅; writes := []; createPk := fun _ => "new-id" |}.

Import AbstractBusinessHourBehavior.

(** A new agent; an agent of the business hour [support-eu] whose status
    the engine has set; the same agent after a manual change to offline. *)
Definition newAgent : User :=
  {| statusLivechat := None; statusDefault := None;
     livechatStatusSystemModified := None; businessHours := ∅ |}.

Definition engineManaged : User :=
  {| statusLivechat := Some NOT_AVAILABLE; statusDefault := Some "online";
     livechatStatusSystemModified := Some true;
     businessHours := {["support-eu"]} |}.

Definition manuallyOffline : User :=
  {| statusLivechat := Some NOT_AVAILABLE; statusDefault := Some "offline";
     livechatStatusSystemModified := Some true;
     businessHours := {["support-eu"]} |}.

Definition sampleUsers : Users :=
  {| agents :=
       {[ "agent-new" := newAgent; "agent-1" := engineManaged;
          "agent-2" := manuallyOffline ]};
     calls := [] |}.

Definition allOpen (businessHourId : string) : bool := true.

End Samples.

(** ** Notions used in the statements *)

Module Notions.
Import Moment AbstractBusinessHourType.

(** The check that the reader of [dddd:HH:mm] undoes the printer at the
    minute [w] of the week. *)
Definition readsBack (w : Z) : bool :=
  match readDayTime (formatTokens w 0 "dddd:HH:mm") with
  | InWeek w' => w' =? w
  | _ => false
  end.

(** The day name and the [HH:mm] time of the civil minute [c]. *)
Definition dayTimeAt (c : Z) : DayTime :=
  {| dayOfWeek := weekdayName (c / 1440 mod 7);
     time := zeroFill2 (c mod 1440 / 60) +:+ ":" +:+ zeroFill2 (c mod 60) |}.

Section WithHost.
Context (host : Host) (timezoneName : string).

(** The two moments that the callback of [convertWorkHours] computes. *)
Definition startUtc (hour : WorkHour) : Moment :=
  utc (tz host (day hour +:+ ":" +:+ toString (start hour)) timezoneName).

Definition finishUtc (hour : WorkHour) : Moment :=
  utc (tz host (day hour +:+ ":" +:+ toString (finish hour)) timezoneName).

(** The finish instant of the window is at or before its start instant. *)
Definition finishNotAfterStart (hour : WorkHour) : Prop :=
  ∃ s f, instantOf (startUtc hour) = Some s ∧
         instantOf (finishUtc hour) = Some f ∧ f ≤ s.

(** The error that the callback throws on the window, if any. *)
Definition rejected (hour : WorkHour) : option Exn :=
  if open hour && isBefore (finishUtc hour) (startUtc hour)
  then Some "error-business-hour-finish-time-before-start-time"
  else if open hour && isSame (startUtc hour) (finishUtc hour)
  then Some "error-business-hour-finish-time-equals-start-time"
  else None.

(** The object [{ time, utc, cron }] made of a value and its moment. *)
Definition composite (m : Moment) (v : HourValue) : HourValue :=
  Converted v
    {| dayOfWeek := format host m "dddd"; time := format host m "HH:mm" |}
    {| dayOfWeek := formatDayOfTheWeekFromServerTimezoneAndUtcHour host m "dddd";
       time := formatDayOfTheWeekFromServerTimezoneAndUtcHour host m "HH:mm" |}.

(** The window once the callback has changed it. *)
Definition converted (hour : WorkHour) : WorkHour :=
  {| day := day hour;
     start := composite (startUtc hour) (start hour);
     finish := composite (finishUtc hour) (finish hour);
     open := open hour |}.

(** The loop of [convertWorkHours] on a list of windows: the error of the
    first window that is rejected, and the windows as the loop leaves
    them. *)
Fixpoint convertFrom (hours : list WorkHour) : option Exn * list WorkHour :=
  match hours with
  | [] => (None, [])
  | hour :: hours' =>
      match rejected hour with
      | Some e => (Some e, hour :: hours')
      | None =>
          let '(r, done) := convertFrom hours' in (r, converted hour :: done)
      end
  end.

End WithHost.

(** The two messages of the validation, the [InvalidWindowOrder] of the
    spec. *)
Definition InvalidWindowOrder (e : Exn) : Prop :=
  e = "error-business-hour-finish-time-before-start-time" ∨
  e = "error-business-hour-finish-time-equals-start-time".

(** The [utc] and [cron] parts of a converted value. *)
Definition utcOf (v : HourValue) : option DayTime :=
  match v with
  | Plain _ => None
  | Converted _ u _ => Some u
  end.

Definition cronOf (v : HourValue) : option DayTime :=
  match v with
  | Plain _ => None
  | Converted _ _ c => Some c
  end.

(** The civil time that [formatDayOfTheWeekFromServerTimezoneAndUtcHour]
    prints for the UTC instant [u]: the day and time of [u] are read as a
    civil time of the server in the current week, the moment is moved by
    the current offset of the server, and it is displayed with the offset
    that the server has at the instant reached. *)
Definition cronCivil (host : Host) (u : Z) : Z :=
  let civil := weekStart host + u mod minutesPerWeek in
  let t := civil - serverParse host civil + utcOffset host in
  t + serverUtcOffset host t.

(** The server has its current offset at the two instants that the
    computation of [cronCivil host u] goes through. *)
Definition serverKeepsOffset (host : Host) (u : Z) : Prop :=
  let civil := weekStart host + u mod minutesPerWeek in
  serverParse host civil = utcOffset host ∧
  serverUtcOffset host (civil - serverParse host civil + utcOffset host)
    = utcOffset host.

(** Following the spec: the instant re-derived from a stored
    [utc.dayOfWeek] and [utc.time], read as a day and a time in UTC. *)
Definition rederiveUtc (host : Host) (d : DayTime) : Moment :=
  parseUtc host (dayOfWeek d +:+ ":" +:+ time d).

End Notions.

(** ** Further notions and sample inputs *)

Module MoreNotions.
Import Moment AbstractBusinessHourType Notions Samples.

(** The value a property had in the draft: the [time] of a converted
    value. *)
Definition original (v : HourValue) : HourValue :=
  match v with
  | Plain s => Plain s
  | Converted t _ _ => t
  end.

Definition originalHour (hour : WorkHour) : WorkHour :=
  {| day := day hour; start := original (start hour);
     finish := original (finish hour); open := open hour |}.

(** What [format] prints of an invalid moment, as day and as time. *)
Definition invalidDate : DayTime :=
  {| dayOfWeek := "Invalid date"; time := "Invalid date" |}.

(** What the start, or the finish, of a window is read as. *)
Definition startRead (hour : WorkHour) : Reading :=
  readDayTime (day hour +:+ ":" +:+ toString (start hour)).

Definition finishRead (hour : WorkHour) : Reading :=
  readDayTime (day hour +:+ ":" +:+ toString (finish hour)).

(** The zone of the server has the offset [o] at all times. *)
Definition serverHasOneOffset (host : Host) (o : Z) : Prop :=
  ∀ x, serverParse host x = o ∧ serverUtcOffset host x = o.

(** A window with an hour that no day has. *)
Definition mondayOverflow : WorkHour :=
  {| day := "Monday"; start := Plain "25:00"; finish := Plain "17:00";
     open := true |}.

Definition wednesdayReversed : WorkHour :=
  {| day := "Wednesday"; start := Plain "10:00"; finish := Plain "09:00";
     open := true |}.

Definition overflowDraft : BusinessHour :=
  {| _id := "overflow"; active := JsBoolean true;
     timezone_name := "Europe/Madrid"; workHours := [mondayOverflow; monday] |}.

Definition reversedDraft : BusinessHour :=
  {| _id := "reversed"; active := JsBoolean true;
     timezone_name := "Europe/Madrid";
     workHours := [monday; wednesdayReversed; tuesdayEmpty] |}.

Definition newDraft : BusinessHour :=
  {| _id := EmptyString; active := JsString "yes";
     timezone_name := "Europe/Madrid"; workHours := [monday; sunday] |}.

(** The same server a few weeks later. *)
Definition serverOnUtcLater : Host :=
  {| zoneParse := fun zone _ => centralEuropean zone;
     zoneUtcOffset := fun zone _ => centralEuropean zone;
     serverParse := fun _ => 0;
     serverUtcOffset := fun _ => 0;
     now := 95000;
     repeatingFraction := fun _ => "3333333333333333" |}.




(** A server in the zone of the schedule. *)
Definition serverInMadrid : Host :=
  {| zoneParse := fun zone _ => centralEuropean zone;
     zoneUtcOffset := fun zone _ => centralEuropean zone;
     serverParse := fun _ => 60;
     serverUtcOffset := fun _ => 60;
     now := 33240;
     repeatingFraction := fun _ => "3333333333333333" |}.

(** Tags, as code units: [vip], [new] and a blank. *)
Definition vipTag : Tags.JSString := [118; 105; 112]%N.
Definition newTag : Tags.JSString := [110; 101; 119]%N.
Definition blankTag : Tags.JSString := [32; 9; 12288]%N.

End MoreNotions.

(** ** Facts about the time line *)

Module MomentFacts.
Import Moment Notions.

Ltac Zify.zify_post_hook ::= Z.div_mod_to_equations.

Lemma append_cons (c : ascii) (s x : string) :
  String c s +:+ x = String c (s +:+ x).
Proof. reflexivity. Qed.

Lemma append_empty_r (s : string) : s +:+ EmptyString = s.
Proof.
  induction s as [|c s IH]; [reflexivity | by rewrite append_cons, IH].
Qed.

Lemma append_inv_head (s x y : string) : s +:+ x = s +:+ y → x = y.
Proof.
  induction s as [|c s IH]; [done | rewrite !append_cons; intros [= H]; auto].
Qed.

Lemma forallb_below (P : Z → bool) (n : nat) :
  forallb P (Z.of_nat <$> seq 0 n) = true →
  ∀ z, 0 ≤ z < Z.of_nat n → P z = true.
Proof.
  intros H z Hz. rewrite forallb_forall in H. apply H.
  apply list_elem_of_In, list_elem_of_fmap. exists (Z.to_nat z). split; [lia|].
  apply list_elem_of_In, in_seq. lia.
Qed.

(** Every minute of the week, printed as [dddd:HH:mm], is read back as
    itself: checked by running the printer and the reader on all of them. *)
Lemma readsBack_week :
  forallb readsBack (Z.of_nat <$> seq 0 (Z.to_nat minutesPerWeek)) = true.
Proof. vm_compute. reflexivity. Qed.

Lemma readDayTime_formatTokens (w : Z) :
  0 ≤ w < minutesPerWeek →
  readDayTime (formatTokens w 0 "dddd:HH:mm") = InWeek w.
Proof.
  intros Hw.
  pose proof (forallb_below readsBack _ readsBack_week w) as H.
  unfold readsBack in H.
  destruct (readDayTime (formatTokens w 0 "dddd:HH:mm")) as [|w'|m].
  - discriminate H. unfold minutesPerWeek in *. lia.
  - f_equal. apply Z.eqb_eq, H. unfold minutesPerWeek in *. lia.
  - discriminate H. unfold minutesPerWeek in *. lia.
Qed.

(** The three formats of the class only see the minute of the week. *)
Lemma formatTokens_dddd (c off : Z) :
  formatTokens c off "dddd" = weekdayName (c / 1440 mod 7).
Proof. cbn [formatTokens]. apply append_empty_r. Qed.

Lemma formatTokens_HHmm (c off : Z) :
  formatTokens c off "HH:mm" =
  zeroFill2 (c mod 1440 / 60) +:+ ":" +:+ zeroFill2 (c mod 60).
Proof. cbn [formatTokens]. by rewrite append_empty_r. Qed.

Lemma formatTokens_ddddHHmm (c off : Z) :
  formatTokens c off "dddd:HH:mm" =
  weekdayName (c / 1440 mod 7) +:+ ":" +:+
  zeroFill2 (c mod 1440 / 60) +:+ ":" +:+ zeroFill2 (c mod 60).
Proof. cbn [formatTokens]. by rewrite append_empty_r. Qed.

Lemma week_fields (c : Z) :
  (c mod 10080) / 1440 mod 7 = c / 1440 mod 7 ∧
  (c mod 10080) mod 1440 / 60 = c mod 1440 / 60 ∧
  (c mod 10080) mod 60 = c mod 60.
Proof. lia. Qed.

Lemma formatTokens_dddd_week (c off off' : Z) :
  formatTokens (c mod minutesPerWeek) off' "dddd" = formatTokens c off "dddd".
Proof.
  rewrite !formatTokens_dddd. unfold minutesPerWeek.
  by destruct (week_fields c) as (-> & _ & _).
Qed.

Lemma formatTokens_HHmm_week (c off off' : Z) :
  formatTokens (c mod minutesPerWeek) off' "HH:mm" = formatTokens c off "HH:mm".
Proof.
  rewrite !formatTokens_HHmm. unfold minutesPerWeek.
  by destruct (week_fields c) as (_ & -> & ->).
Qed.

Lemma formatTokens_ddddHHmm_week (c off off' : Z) :
  formatTokens (c mod minutesPerWeek) off' "dddd:HH:mm" =
  formatTokens c off "dddd:HH:mm".
Proof.
  rewrite !formatTokens_ddddHHmm. unfold minutesPerWeek.
  by destruct (week_fields c) as (-> & -> & ->).
Qed.

(** Reading what has been printed of a civil time, or of a valid moment. *)
Lemma readDayTime_printed (c off : Z) :
  readDayTime (formatTokens c off "dddd:HH:mm") = InWeek (c mod minutesPerWeek).
Proof.
  rewrite <- (formatTokens_ddddHHmm_week c off 0).
  apply readDayTime_formatTokens. unfold minutesPerWeek. lia.
Qed.

Lemma readDayTime_format (host : Host) (t : Z) (mode : Mode) :
  readDayTime (format host (At t mode) "dddd:HH:mm") =
  InWeek ((t + offsetOf host mode t) mod minutesPerWeek).
Proof. apply readDayTime_printed. Qed.

Lemma weekStart_week (host : Host) : weekStart host mod minutesPerWeek = 0.
Proof. unfold weekStart, minutesPerWeek. lia. Qed.

(** Adding [k / 60] hours moves the moment by [k] minutes. *)
Lemma addHours_minutes (k t : Z) (mode : Mode) :
  addHours (k # 60) (At t mode) = At (t + k) mode.
Proof.
  unfold addHours. f_equal. f_equal.
  unfold Qfloor, Qplus, Qmult. simpl Qnum. simpl Qden.
  lia.
Qed.

End MomentFacts.

(** ** Facts about the conversion of the work hours *)

Module TypeFacts.
Import Moment AbstractBusinessHourType Notions MomentFacts.

Section WithHost.
Context (host : Host).

Lemma convertWorkHour_run (timezoneName : string) (hour : WorkHour) :
  convertWorkHour host timezoneName hour =
  match rejected host timezoneName hour with
  | Some e => (inl e, hour)
  | None => (inr tt, converted host timezoneName hour)
  end.
Proof.
  unfold convertWorkHour, rejected, converted, composite, startUtc, finishUtc.
  unfold mbind, M_bind, bind, get, put, when, throw, mret, M_ret, ret, clone.
  destruct (open hour && isBefore _ _); [reflexivity|].
  destruct (open hour && isSame _ _); reflexivity.
Qed.

Lemma set_workHours_id (b : BusinessHour) : set_workHours (workHours b) b = b.
Proof. by destruct b. Qed.

Lemma forEachWorkHour_run (rest done : list WorkHour) (b : BusinessHour) :
  workHours b = done ++ rest →
  forEachWorkHour host (seq (length done) (length rest)) b =
  let r := convertFrom host (timezone_name b) rest in
  (match r.1 with Some e => inl e | None => inr tt end,
   set_workHours (done ++ r.2) b).
Proof.
  revert done b. induction rest as [|hour rest IH]; intros done b Hb.
  - cbn. rewrite <- Hb. by rewrite set_workHours_id.
  - cbn [length seq forEachWorkHour convertFrom].
    unfold mbind, M_bind, bind, get, onWorkHour.
    rewrite Hb, list_lookup_middle by done.
    rewrite convertWorkHour_run.
    destruct (rejected host (timezone_name b) hour) as [e|] eqn:Hrej.
    + cbn. rewrite list_insert_id; [done|]. by apply list_lookup_middle.
    + specialize (IH (done ++ [converted host (timezone_name b) hour])
                     (set_workHours
                        (done ++ converted host (timezone_name b) hour :: rest) b)).
      rewrite length_app in IH. cbn [length] in IH.
      replace (length done + 1)%nat with (S (length done)) in IH by lia.
      replace (<[length done:=converted host (timezone_name b) hour]>
                 (done ++ hour :: rest))
        with (done ++ converted host (timezone_name b) hour :: rest).
      2:{ rewrite insert_app_r_alt by lia.
          by replace (length done - length done)%nat with 0%nat by lia. }
      rewrite IH by (cbn; by rewrite <- app_assoc).
      cbn. destruct (convertFrom host (timezone_name b) rest) as [r done'].
      cbn. by rewrite <- app_assoc.
Qed.

Lemma convertWorkHours_run (b : BusinessHour) :
  convertWorkHours host b =
  let r := convertFrom host (timezone_name b) (workHours b) in
  let b' := set_workHours r.2 b in
  (match r.1 with Some e => inl e | None => inr b' end, b').
Proof.
  pose proof (forEachWorkHour_run (workHours b) [] b eq_refl) as H.
  cbn [length app] in H.
  unfold convertWorkHours, mbind, M_bind, bind, get. rewrite H. cbn.
  by destruct (convertFrom host (timezone_name b) (workHours b)).1.
Qed.


Lemma utc_instant (m : Moment) (t : Z) :
  instantOf (utc m) = Some t → utc m = At t InUtc.
Proof. destruct m; cbn; [done | by intros [= ->]]. Qed.

Lemma startUtc_instant (timezoneName : string) (hour : WorkHour) (t : Z) :
  instantOf (startUtc host timezoneName hour) = Some t →
  startUtc host timezoneName hour = At t InUtc.
Proof. apply utc_instant. Qed.

Lemma finishUtc_instant (timezoneName : string) (hour : WorkHour) (t : Z) :
  instantOf (finishUtc host timezoneName hour) = Some t →
  finishUtc host timezoneName hour = At t InUtc.
Proof. apply utc_instant. Qed.

Lemma isBefore_or_isSame (a b : Moment) :
  isBefore b a || isSame a b = true ↔
  ∃ s f, instantOf a = Some s ∧ instantOf b = Some f ∧ f ≤ s.
Proof.
  destruct a as [|s so], b as [|f fo]; cbn.
  1-3: split; [done | by intros (? & ? & ? & ? & ?)].
  rewrite orb_true_iff, Z.ltb_lt, Z.eqb_eq. split.
  - intros H. exists s, f. repeat split. lia.
  - intros (? & ? & [= <-] & [= <-] & ?). lia.
Qed.

Lemma rejected_is_Some (timezoneName : string) (hour : WorkHour) :
  is_Some (rejected host timezoneName hour) ↔
  open hour = true ∧ finishNotAfterStart host timezoneName hour.
Proof.
  unfold finishNotAfterStart. rewrite <- isBefore_or_isSame. unfold rejected.
  destruct (open hour); cbn.
  - destruct (isBefore _ _); cbn; [split; eauto|].
    destruct (isSame _ _); cbn; [split; eauto|].
    split; [by intros [? [=]] | by intros [_ [=]]].
  - split; [by intros [? [=]] | by intros [[=] _]].
Qed.

Lemma rejected_InvalidWindowOrder (timezoneName : string) (hour : WorkHour) (e : Exn) :
  rejected host timezoneName hour = Some e → InvalidWindowOrder e.
Proof.
  unfold rejected, InvalidWindowOrder.
  destruct (open hour && isBefore _ _); [intros [= <-]; by left|].
  destruct (open hour && isSame _ _); [intros [= <-]; by right | done].
Qed.

(** The loop stops with an error exactly where a window is rejected. *)
Lemma convertFrom_is_Some (timezoneName : string) (hours : list WorkHour) :
  is_Some (convertFrom host timezoneName hours).1 ↔
  ∃ hour, hour ∈ hours ∧ is_Some (rejected host timezoneName hour).
Proof.
  induction hours as [|hour hours IH]; cbn.
  - split; [by intros [? [=]] | intros (? & H & _); by apply elem_of_nil in H].
  - destruct (rejected host timezoneName hour) as [e|] eqn:Hrej; cbn.
    + split; [|eauto]. intros _. exists hour. rewrite Hrej. split; [left | eauto].
    + destruct (convertFrom host timezoneName hours) as [r done]. cbn in *.
      rewrite IH. split.
      * intros (h & Hin & Hh). exists h. split; [by right | done].
      * intros (h & Hin & Hh). apply elem_of_cons in Hin as [-> | Hin].
        -- rewrite Hrej in Hh. by destruct Hh.
        -- eauto.
Qed.

Lemma convertFrom_InvalidWindowOrder (timezoneName : string)
    (hours : list WorkHour) (e : Exn) :
  (convertFrom host timezoneName hours).1 = Some e → InvalidWindowOrder e.
Proof.
  induction hours as [|hour hours IH]; cbn; [done|].
  destruct (rejected host timezoneName hour) as [e'|] eqn:Hrej; cbn.
  - intros [= <-]. by eapply rejected_InvalidWindowOrder.
  - destruct (convertFrom host timezoneName hours) as [r done]. cbn in *. done.
Qed.

(** Where no window is rejected, every window is converted. *)
Lemma convertFrom_None (timezoneName : string) (hours : list WorkHour) :
  (convertFrom host timezoneName hours).1 = None →
  (convertFrom host timezoneName hours).2 = converted host timezoneName <$> hours.
Proof.
  induction hours as [|hour hours IH]; cbn; [done|].
  destruct (rejected host timezoneName hour) as [e'|] eqn:Hrej; cbn; [done|].
  destruct (convertFrom host timezoneName hours) as [r done]. cbn in *.
  intros H. by rewrite IH.
Qed.

(** Where the window at [k] is the first that is rejected, the windows
    before it are converted and the others are as they were. *)
Lemma convertFrom_first (timezoneName : string) (hours : list WorkHour)
    (k : nat) (hour : WorkHour) (e : Exn) :
  hours !! k = Some hour →
  rejected host timezoneName hour = Some e →
  (∀ j h, (j < k)%nat → hours !! j = Some h → rejected host timezoneName h = None) →
  convertFrom host timezoneName hours =
  (Some e, (converted host timezoneName <$> take k hours) ++ drop k hours).
Proof.
  revert k. induction hours as [|h0 hours IH]; intros k Hk Hrej Hbefore.
  - done.
  - destruct k as [|k]; cbn in Hk.
    + injection Hk as ->. cbn. by rewrite Hrej.
    + cbn [convertFrom]. rewrite (Hbefore 0%nat h0) by (done || lia).
      rewrite (IH k Hk Hrej).
      * done.
      * intros j h Hj Hh. apply (Hbefore (S j) h); [lia | done].
Qed.

(** The [utc] and [cron] parts of a value converted at a valid moment. *)
Lemma formatDayOfTheWeek_dddd (t : Z) :
  formatDayOfTheWeekFromServerTimezoneAndUtcHour host (At t InUtc) "dddd" =
  dayOfWeek (dayTimeAt (cronCivil host t)).
Proof.
  unfold formatDayOfTheWeekFromServerTimezoneAndUtcHour, local.
  rewrite readDayTime_format. cbn [civilOf offsetOf].
  rewrite addHours_minutes. unfold format. cbn [offsetOf].
  rewrite formatTokens_dddd. unfold dayTimeAt, cronCivil; cbn [dayOfWeek].
  by rewrite Z.add_0_r.
Qed.

Lemma formatDayOfTheWeek_HHmm (t : Z) :
  formatDayOfTheWeekFromServerTimezoneAndUtcHour host (At t InUtc) "HH:mm" =
  time (dayTimeAt (cronCivil host t)).
Proof.
  unfold formatDayOfTheWeekFromServerTimezoneAndUtcHour, local.
  rewrite readDayTime_format. cbn [civilOf offsetOf].
  rewrite addHours_minutes. unfold format. cbn [offsetOf].
  rewrite formatTokens_HHmm. unfold dayTimeAt, cronCivil; cbn [time].
  by rewrite Z.add_0_r.
Qed.

Lemma composite_At (t : Z) (v : HourValue) :
  composite host (At t InUtc) v =
  Converted v (dayTimeAt t) (dayTimeAt (cronCivil host t)).
Proof.
  unfold composite. rewrite formatDayOfTheWeek_dddd, formatDayOfTheWeek_HHmm.
  unfold format. cbn [offsetOf]. rewrite formatTokens_dddd, formatTokens_HHmm.
  rewrite Z.add_0_r. by destruct (dayTimeAt (cronCivil host t)).
Qed.

(** Where the server keeps its offset, the civil time printed is the UTC
    time moved by that offset, up to whole weeks. *)
Lemma dayTimeAt_cronCivil (t : Z) :
  serverKeepsOffset host t →
  dayTimeAt (cronCivil host t) = dayTimeAt (t + utcOffset host).
Proof.
  unfold serverKeepsOffset, cronCivil. cbn zeta. intros [Hparse Hprint].
  rewrite Hprint, Hparse. clear Hprint Hparse.
  unfold dayTimeAt, weekStart, minutesPerWeek.
  f_equal; [|f_equal; [|f_equal]]; f_equal; lia.
Qed.

End WithHost.
End TypeFacts.

(** ** The conversion and the saving of a business hour *)

Module TypeTheorems.
Import Moment AbstractBusinessHourType Notions MomentFacts TypeFacts Samples.
Import MoreNotions.

Lemma convertWorkHours_returns (host : Host) (b b' : BusinessHour) :
  (convertWorkHours host b).1 = inr b' →
  (convertWorkHours host b).2 = b' ∧
  b' = set_workHours (converted host (timezone_name b) <$> workHours b) b.
Proof.
  rewrite convertWorkHours_run. cbn.
  destruct (convertFrom host (timezone_name b) (workHours b)).1 eqn:Hr; [done|].
  intros [= <-]. by rewrite convertFrom_None.
Qed.

Lemma convertWorkHours_throws (host : Host) (b : BusinessHour) (e : Exn) :
  (convertWorkHours host b).1 = inl e ↔
  (convertFrom host (timezone_name b) (workHours b)).1 = Some e.
Proof.
  rewrite convertWorkHours_run. cbn.
  destruct (convertFrom host (timezone_name b) (workHours b)).1;
    split; by intros [= ->].
Qed.

(** C3. [convertWorkHours] throws one of the two errors of the window order
    if and only if some window of the draft has [open] true and a finish
    instant at or before its start instant; a window with [open] false is
    never the cause, whatever its times. *)
Theorem convertWorkHours_throws_iff_invalid_window
    (host : Host) (b : BusinessHour) :
  (∃ e, (convertWorkHours host b).1 = inl e ∧ InvalidWindowOrder e) ↔
  (∃ hour, hour ∈ workHours b ∧ open hour = true ∧
           finishNotAfterStart host (timezone_name b) hour).
Proof.
  split.
  - intros (e & He & _). apply convertWorkHours_throws in He.
    destruct (proj1 (convertFrom_is_Some host (timezone_name b) (workHours b)))
      as (hour & Hin & Hrej); [by rewrite He|].
    apply rejected_is_Some in Hrej as [Hopen Horder]. eauto.
  - intros (hour & Hin & Hopen & Horder).
    destruct (proj2 (convertFrom_is_Some host (timezone_name b) (workHours b)))
      as [e He].
    { exists hour. split; [done|]. by apply rejected_is_Some. }
    exists e. split; [by apply convertWorkHours_throws|].
    by eapply convertFrom_InvalidWindowOrder.
Qed.

Lemma convertWorkHours_throws_iff_invalid_window_witness :
  ∃ e, (convertWorkHours serverOnUtc brokenDraft).1 = inl e ∧
       InvalidWindowOrder e.
Proof.
  apply (proj2 (convertWorkHours_throws_iff_invalid_window serverOnUtc
                  brokenDraft)).
  exists tuesdayEmpty. split.
  - apply list_elem_of_lookup. by exists 2%nat.
  - split; [reflexivity|].
    exists 33660, 33660. split; [reflexivity | split; [reflexivity | lia]].
Defined.

(** The two cases of the spec, on a Tuesday 10:00 to 10:00 and on a
    Wednesday 10:00 to 09:00, and the latter with [open] false. *)
Example convertWorkHours_equal_times :
  (convertWorkHours serverOnUtc (set_workHours [tuesdayEmpty] supportEU)).1 =
  inl "error-business-hour-finish-time-equals-start-time".
Proof. vm_compute. reflexivity. Qed.

Example convertWorkHours_reversed_times :
  (convertWorkHours serverOnUtc
     (set_workHours
        [{| day := "Wednesday"; start := Plain "10:00"; finish := Plain "09:00";
            open := true |}] supportEU)).1 =
  inl "error-business-hour-finish-time-before-start-time".
Proof. vm_compute. reflexivity. Qed.

Example convertWorkHours_closed_day :
  ∃ b', (convertWorkHours serverOnUtc
           (set_workHours [wednesdayClosed] supportEU)).1 = inr b'.
Proof. eexists. vm_compute. reflexivity. Qed.

(** What [baseSaveBusinessHour] does when [convertWorkHours] throws. *)
Lemma baseSaveBusinessHour_throws (host : Host) (s : Saving) (e : Exn) :
  let d := set_active (JsBoolean (Boolean (active (businessHourData s))))
             (businessHourData s) in
  (convertWorkHours host d).1 = inl e →
  baseSaveBusinessHour host s =
  (inl e, {| businessHourData := (convertWorkHours host d).2;
             BusinessHourRepository := BusinessHourRepository s |}).
Proof.
  intros d He. unfold baseSaveBusinessHour.
  unfold mbind, M_bind, bind, onData, get, put. cbn.
  fold d. destruct (convertWorkHours host d) as [r d'] eqn:Hrun.
  cbn in He. by subst r.
Qed.

(** What it does when [convertWorkHours] returns: one write, of the draft
    with every window converted. *)
Lemma baseSaveBusinessHour_returns (host : Host) (s : Saving) (data : BusinessHour) :
  (convertWorkHours host
     (set_active (JsBoolean (Boolean (active (businessHourData s))))
        (businessHourData s))).1 = inr data →
  writes (BusinessHourRepository (baseSaveBusinessHour host s).2) =
  writes (BusinessHourRepository s) ++
  [if negb (String.eqb (_id data) EmptyString)
   then UpdateOne (_id data) data else InsertOne data] ∧
  workHours data =
  converted host (timezone_name (businessHourData s)) <$>
    workHours (businessHourData s).
Proof.
  intros Hrun. split.
  - unfold baseSaveBusinessHour.
    unfold mbind, M_bind, bind, onData, onRepository, get, put, mret, M_ret, ret.
    cbn.
    destruct (convertWorkHours host _) as [r d'] eqn:Hconv. cbn in Hrun.
    subst r. by destruct (negb (String.eqb (_id data) EmptyString)).
  - by apply convertWorkHours_returns in Hrun as [_ ->].
Qed.

(** C4. If a window of the draft fails the validation, [baseSaveBusinessHour]
    throws and leaves the collection as it was: no document is changed and
    no [updateOne] or [insertOne] is asked of it. *)
Theorem baseSaveBusinessHour_invalid_window_no_write
    (host : Host) (s : Saving) (hour : WorkHour) :
  hour ∈ workHours (businessHourData s) →
  open hour = true →
  finishNotAfterStart host (timezone_name (businessHourData s)) hour →
  ∃ e, (baseSaveBusinessHour host s).1 = inl e ∧ InvalidWindowOrder e ∧
       BusinessHourRepository (baseSaveBusinessHour host s).2 =
       BusinessHourRepository s.
Proof.
  intros Hin Hopen Horder.
  set (d := set_active (JsBoolean (Boolean (active (businessHourData s))))
              (businessHourData s)).
  destruct (proj2 (convertFrom_is_Some host (timezone_name d) (workHours d)))
    as [e He].
  { exists hour. split; [done|]. by apply rejected_is_Some. }
  exists e. rewrite (baseSaveBusinessHour_throws host s e).
  - repeat split. by eapply convertFrom_InvalidWindowOrder.
  - by apply convertWorkHours_throws.
Qed.

Lemma baseSaveBusinessHour_invalid_window_no_write_witness :
  tuesdayEmpty ∈ workHours brokenDraft ∧
  ∃ e, (baseSaveBusinessHour serverOnUtc
          {| businessHourData := brokenDraft;
             BusinessHourRepository := emptyRepository |}).1 = inl e ∧
       InvalidWindowOrder e ∧
       BusinessHourRepository
         (baseSaveBusinessHour serverOnUtc
            {| businessHourData := brokenDraft;
               BusinessHourRepository := emptyRepository |}).2 =
       emptyRepository.
Proof.
  assert (tuesdayEmpty ∈ workHours brokenDraft) as Hin.
  { cbn. apply list_elem_of_lookup. by exists 2%nat. }
  split; [exact Hin|].
  apply (baseSaveBusinessHour_invalid_window_no_write serverOnUtc
           {| businessHourData := brokenDraft;
              BusinessHourRepository := emptyRepository |} tuesdayEmpty).
  - exact Hin.
  - reflexivity.
  - exists 33660, 33660. split; [reflexivity | split; [reflexivity | lia]].
Defined.




(** Reading a stored [utc] back gives the same minute of the week, in the
    current week. *)
Lemma rederiveUtc_dayTimeAt (host : Host) (t : Z) :
  rederiveUtc host (dayTimeAt t) =
  At (weekStart host + t mod minutesPerWeek) InUtc.
Proof.
  unfold rederiveUtc, parseUtc, dayTimeAt. cbn [dayOfWeek time].
  rewrite <- (formatTokens_ddddHHmm t 0).
  by rewrite readDayTime_printed.
Qed.

(** C6, as the code has it.  In a draft that [convertWorkHours] accepts, the
    instant re-derived from the stored [utc.dayOfWeek] and [utc.time] of a
    start or a finish is the instant of the authored local day and time up
    to a whole number of weeks: the same UTC day of the week and time of
    day.  The two instants are equal when the UTC instant lies in the
    current week. *)
Theorem utc_rederived_same_weekly_instant
    (host : Host) (b b' : BusinessHour) (i : nat) (hour hour' : WorkHour)
    (s f : Z) (ds df : DayTime) :
  (convertWorkHours host b).1 = inr b' →
  workHours b !! i = Some hour →
  workHours b' !! i = Some hour' →
  instantOf (startUtc host (timezone_name b) hour) = Some s →
  instantOf (finishUtc host (timezone_name b) hour) = Some f →
  utcOf (start hour') = Some ds →
  utcOf (finish hour') = Some df →
  ∃ s' f',
    instantOf (rederiveUtc host ds) = Some s' ∧
    instantOf (rederiveUtc host df) = Some f' ∧
    (s' - s) mod minutesPerWeek = 0 ∧
    (f' - f) mod minutesPerWeek = 0 ∧
    (weekStart host ≤ s < weekStart host + minutesPerWeek → s' = s) ∧
    (weekStart host ≤ f < weekStart host + minutesPerWeek → f' = f).
Proof.
  intros Hrun Hi Hi' Hs Hf Hds Hdf.
  apply convertWorkHours_returns in Hrun as [_ ->]. cbn in Hi'.
  rewrite list_lookup_fmap, Hi in Hi'. injection Hi' as <-.
  unfold converted in Hds, Hdf. cbn [start finish] in Hds, Hdf.
  rewrite (startUtc_instant host _ _ _ Hs), composite_At in Hds.
  rewrite (finishUtc_instant host _ _ _ Hf), composite_At in Hdf.
  injection Hds as <-. injection Hdf as <-.
  rewrite !rederiveUtc_dayTimeAt. cbn [instantOf].
  exists (weekStart host + s mod minutesPerWeek),
         (weekStart host + f mod minutesPerWeek).
  unfold weekStart, minutesPerWeek.
  repeat split; lia.
Qed.

Lemma utc_rederived_same_weekly_instant_witness :
  ∃ b' s' f',
    (convertWorkHours serverOnUtc supportEU).1 = inr b' ∧
    instantOf (rederiveUtc serverOnUtc {| dayOfWeek := "Monday"; time := "08:00" |})
      = Some s' ∧
    instantOf (rederiveUtc serverOnUtc {| dayOfWeek := "Monday"; time := "16:00" |})
      = Some f' ∧
    (s' - 32160) mod minutesPerWeek = 0 ∧
    (f' - 32640) mod minutesPerWeek = 0 ∧
    (weekStart serverOnUtc ≤ 32160 < weekStart serverOnUtc + minutesPerWeek →
     s' = 32160) ∧
    (weekStart serverOnUtc ≤ 32640 < weekStart serverOnUtc + minutesPerWeek →
     f' = 32640).
Proof.
  eexists.
  destruct (utc_rederived_same_weekly_instant serverOnUtc supportEU _ 0%nat
              monday _ 32160 32640 _ _
              eq_refl eq_refl eq_refl eq_refl eq_refl eq_refl eq_refl)
    as (s' & f' & H).
  exists s', f'. split; [reflexivity | exact H].
Defined.

(** C6, as the spec states it, fails on a window that the conversion moves
    across the start of the week: Sunday 00:30 in Europe/Madrid is the
    instant 30210, stored as Saturday 23:30, which is read back as the
    Saturday of the current week, the instant 40290, a week later. *)
Lemma utc_rederived_a_week_later :
  (convertWorkHours serverOnUtc nightShift).1 =
    inr (convertWorkHours serverOnUtc nightShift).2 ∧
  (hour' ← workHours (convertWorkHours serverOnUtc nightShift).2 !! 0%nat;
   utcOf (start hour')) = Some saturdayNight ∧
  instantOf (startUtc serverOnUtc (timezone_name nightShift) sunday)
    = Some 30210 ∧
  instantOf (rederiveUtc serverOnUtc saturdayNight) = Some 40290 ∧
  instantOf (rederiveUtc serverOnUtc saturdayNight) ≠
  instantOf (startUtc serverOnUtc (timezone_name nightShift) sunday).
Proof.
  assert (instantOf (startUtc serverOnUtc (timezone_name nightShift) sunday)
          = Some 30210) as Hs by (vm_compute; reflexivity).
  assert (instantOf (rederiveUtc serverOnUtc saturdayNight) = Some 40290) as Hr
    by (vm_compute; reflexivity).
  split; [vm_compute; reflexivity|].
  split; [vm_compute; reflexivity|].
  split; [exact Hs|]. split; [exact Hr|].
  rewrite Hs, Hr. discriminate.
Qed.

(** C10. If the window at index [k] is the first that fails the validation,
    [convertWorkHours] throws after it has changed the caller's draft in
    place: every window before [k] holds the composite values, the window
    at [k] and those after it are as they were; [baseSaveBusinessHour] then
    leaves the draft in this state and the collection untouched. *)
Theorem convertWorkHours_partial_mutation
    (host : Host) (b : BusinessHour) (k : nat) (hour : WorkHour) :
  workHours b !! k = Some hour →
  open hour = true →
  finishNotAfterStart host (timezone_name b) hour →
  (∀ j h, (j < k)%nat → workHours b !! j = Some h →
          ¬ (open h = true ∧ finishNotAfterStart host (timezone_name b) h)) →
  ∃ e b',
    convertWorkHours host b = (inl e, b') ∧ InvalidWindowOrder e ∧
    _id b' = _id b ∧ active b' = active b ∧
    timezone_name b' = timezone_name b ∧
    length (workHours b') = length (workHours b) ∧
    (∀ j h, (j < k)%nat → workHours b !! j = Some h →
            workHours b' !! j = Some (converted host (timezone_name b) h)) ∧
    (∀ j, (k ≤ j)%nat → workHours b' !! j = workHours b !! j) ∧
    (∀ repository,
       (baseSaveBusinessHour host
          {| businessHourData := b; BusinessHourRepository := repository |}).2 =
       {| businessHourData :=
            set_active (JsBoolean (Boolean (active b))) b';
          BusinessHourRepository := repository |}).
Proof.
  intros Hk Hopen Horder Hbefore.
  assert (is_Some (rejected host (timezone_name b) hour)) as [e He]
    by (by apply rejected_is_Some).
  assert (∀ j h, (j < k)%nat → workHours b !! j = Some h →
                 rejected host (timezone_name b) h = None) as Hnone.
  { intros j h Hj Hh. apply eq_None_not_Some. intros Hsome.
    apply (Hbefore j h Hj Hh). by apply rejected_is_Some. }
  pose proof (convertFrom_first host _ _ k hour e Hk He Hnone) as Hfrom.
  pose proof (lookup_lt_Some _ _ _ Hk) as Hlen.
  set (done := (converted host (timezone_name b) <$> take k (workHours b))
                 ++ drop k (workHours b)) in *.
  assert (length (converted host (timezone_name b) <$> take k (workHours b)) = k)
    as Hlk by (rewrite length_fmap, length_take_le; lia).
  exists e, (set_workHours done b).
  split; [by rewrite convertWorkHours_run, Hfrom|].
  split; [by eapply rejected_InvalidWindowOrder|].
  repeat split.
  - subst done. cbn. rewrite length_app, Hlk, length_drop. lia.
  - intros j h Hj Hh. subst done. cbn.
    rewrite lookup_app_l by lia.
    by rewrite list_lookup_fmap, lookup_take_lt, Hh by lia.
  - intros j Hj. subst done. cbn.
    rewrite lookup_app_r by lia. rewrite Hlk, lookup_drop. f_equal. lia.
  - intros repository.
    rewrite (baseSaveBusinessHour_throws host _ e); cbn.
    + f_equal. rewrite convertWorkHours_run. cbn. by rewrite Hfrom.
    + rewrite convertWorkHours_run. cbn. by rewrite Hfrom.
Qed.

Lemma convertWorkHours_partial_mutation_witness :
  ∃ b',
    convertWorkHours serverOnUtc brokenDraft =
      (inl "error-business-hour-finish-time-equals-start-time", b') ∧
    workHours b' !! 0%nat =
      Some (converted serverOnUtc "Europe/Madrid" monday) ∧
    workHours b' !! 1%nat =
      Some (converted serverOnUtc "Europe/Madrid" wednesdayClosed) ∧
    workHours b' !! 2%nat = Some tuesdayEmpty ∧
    workHours b' !! 3%nat = Some sunday.
Proof.
  destruct (convertWorkHours_partial_mutation serverOnUtc brokenDraft 2%nat
              tuesdayEmpty eq_refl eq_refl)
    as (e & b' & Hrun & _ & _ & _ & _ & _ & Hdone & Hrest & _).
  - exists 33660, 33660. split; [reflexivity | split; [reflexivity | lia]].
  - intros j h Hj Hh [Hopen (s & f & Hs & Hf & Hle)].
    destruct j as [|[|j]]; [| |lia]; injection Hh as <-.
    + vm_compute in Hs, Hf. injection Hs as <-. injection Hf as <-. lia.
    + discriminate Hopen.
  - exists b'. split.
    + rewrite Hrun. f_equal. assert (H := Hrun). vm_compute in H.
      by injection H as <- _.
    + split; [apply (Hdone 0%nat); [lia | reflexivity]|].
      split; [apply (Hdone 1%nat); [lia | reflexivity]|].
      split; [by rewrite (Hrest 2%nat) by lia | by rewrite (Hrest 3%nat) by lia].
Defined.

(** *** The two formats of [getUTCFromTimezone] *)

Lemma digitChar_not_sign (d : Z) :
  0 ≤ d < 10 → digitChar d ≠ "+"%char ∧ digitChar d ≠ "."%char.
Proof.
  intros Hd.
  assert (d = 0 ∨ d = 1 ∨ d = 2 ∨ d = 3 ∨ d = 4 ∨ d = 5 ∨ d = 6 ∨ d = 7 ∨
          d = 8 ∨ d = 9) as Hcases by lia.
  repeat (destruct Hcases as [-> | Hcases]); try subst d; by split.
Qed.

Lemma decimalDigits_first (fuel : nat) (n : Z) (acc : string) :
  ∃ d rest, 0 ≤ d < 10 ∧
    decimalDigits (S fuel) n acc = String (digitChar d) rest.
Proof.
  revert n acc. induction fuel as [|fuel IH]; intros n acc.
  - exists (n mod 10), acc. split; [lia|]. cbn. by destruct (n <? 10).
  - cbn [decimalDigits]. destruct (n <? 10).
    + exists (n mod 10), acc. split; [lia | done].
    + apply IH.
Qed.

Lemma decimal_first (n : Z) :
  ∃ d rest, 0 ≤ d < 10 ∧ decimal n = String (digitChar d) rest.
Proof. apply decimalDigits_first. Qed.

Lemma decimal_digit (n : Z) :
  0 ≤ n < 10 → decimal n = String (digitChar n) EmptyString.
Proof.
  intros Hn. unfold decimal. cbn [decimalDigits].
  replace (n <? 10) with true by lia. by replace (n mod 10) with n by lia.
Qed.

Lemma fraction_cases (host : Host) (a : Z) :
  fraction host a = EmptyString ∨ ∃ rest, fraction host a = String "." rest.
Proof. unfold fraction. destruct (_ =? 0); [by left | right; eauto]. Qed.

(** The token [Z] of an offset and the decimal number of its hours are
    never the same string. *)
Lemma formatOffset_not_hoursToString (host : Host) (off : Z) :
  formatOffset off ≠ hoursToString host off.
Proof.
  unfold formatOffset, hoursToString.
  set (H := Z.abs off / 60). set (M := Z.abs off mod 60).
  destruct (decimal_first H) as (d & rest & Hd & Hdec).
  destruct (off <? 0).
  - rewrite !append_cons. change (EmptyString +:+ ?x) with x. intros [= Heq].
    unfold zeroFill2 in Heq at 1. destruct (H <? 10) eqn:Hsmall.
    + rewrite decimal_digit in Heq by lia.
      rewrite !append_cons in Heq. change (EmptyString +:+ ?x) with x in Heq.
      injection Heq as Hzero Hrest.
      destruct (fraction_cases host (Z.abs off)) as [Hf | [r Hf]];
        rewrite Hf in Hrest; [discriminate|].
      injection Hrest as Hpoint _.
      destruct (digitChar_not_sign H) as [_ Hne]; [lia | done].
    + apply append_inv_head in Heq.
      destruct (fraction_cases host (Z.abs off)) as [Hf | [r Hf]];
        rewrite Hf in Heq; discriminate.
  - change (EmptyString +:+ ?x) with x. rewrite Hdec, !append_cons. intros [= Heq _].
    destruct (digitChar_not_sign d Hd) as [Hne _]. done.
Qed.

(** C9. With a zone name, [getUTCFromTimezone] returns the token [Z] of the
    offset of the zone, a sign and [HH:mm]; without one (or with the empty
    name) it returns the server's offset divided by 60 as a decimal
    number.  For one and the same offset, zero included, the two results
    are different strings. *)
Theorem getUTCFromTimezone_two_formats (host : Host) (name : string) :
  name ≠ EmptyString →
  zoneUtcOffset host name (now host) = utcOffset host →
  getUTCFromTimezone host (Some name) = formatOffset (utcOffset host) ∧
  getUTCFromTimezone host None = hoursToString host (utcOffset host) ∧
  getUTCFromTimezone host (Some EmptyString) = hoursToString host (utcOffset host) ∧
  getUTCFromTimezone host (Some name) ≠ getUTCFromTimezone host None.
Proof.
  intros Hname Hzone.
  assert (getUTCFromTimezone host (Some name) = formatOffset (utcOffset host))
    as Hnamed.
  { unfold getUTCFromTimezone. apply String.eqb_neq in Hname. rewrite Hname.
    unfold format, tzNow. cbn [formatTokens offsetOf].
    by rewrite append_empty_r, Hzone. }
  split; [done|]. split; [done|]. split; [done|].
  rewrite Hnamed. apply formatOffset_not_hoursToString.
Qed.

Lemma getUTCFromTimezone_two_formats_witness :
  getUTCFromTimezone serverTwoHoursEast (Some "Europe/Kiev") = "+02:00" ∧
  getUTCFromTimezone serverTwoHoursEast None = "2" ∧
  getUTCFromTimezone serverTwoHoursEast (Some "Europe/Kiev") ≠
  getUTCFromTimezone serverTwoHoursEast None.
Proof.
  destruct (getUTCFromTimezone_two_formats serverTwoHoursEast "Europe/Kiev")
    as (Hnamed & Hnone & _ & Hne).
  - discriminate.
  - reflexivity.
  - split; [rewrite Hnamed; reflexivity|].
    split; [rewrite Hnone; reflexivity | exact Hne].
Defined.

Example getUTCFromTimezone_half_hour :
  getUTCFromTimezone serverInKolkata None = "5.5" ∧
  getUTCFromTimezone serverInKolkata (Some "Asia/Kolkata") = "+05:30".
Proof. split; vm_compute; reflexivity. Qed.

End TypeTheorems.

(** ** The hooks on the agents *)

Module BehaviorTheorems.
Import AbstractBusinessHourBehavior Samples.

Section WithBusinessHours.
Context (openNow : string → bool).

Lemma filterBusinessHoursThatMustBeOpened_default (d : BusinessHour) :
  filterBusinessHoursThatMustBeOpened openNow [d] =
  if openNow (_id d) then [_id d] else [].
Proof.
  unfold filterBusinessHoursThatMustBeOpened.
  rewrite filter_cons, filter_nil.
  destruct (openNow (_id d)); by case_decide.
Qed.

Lemma onNewAgentCreated_open (d : BusinessHour) (agentId : string) (users : Users) :
  openNow (_id d) = true →
  onNewAgentCreated (Some d) openNow agentId users =
  addBusinessHourByAgentIds [agentId] (_id d) users.
Proof.
  intros Hopen. unfold onNewAgentCreated.
  by rewrite filterBusinessHoursThatMustBeOpened_default, Hopen.
Qed.

Lemma onNewAgentCreated_closed (d : BusinessHour) (agentId : string) (users : Users) :
  openNow (_id d) = false →
  onNewAgentCreated (Some d) openNow agentId users =
  setLivechatStatus agentId NOT_AVAILABLE users.
Proof.
  intros Hclosed. unfold onNewAgentCreated.
  by rewrite filterBusinessHoursThatMustBeOpened_default, Hclosed.
Qed.

End WithBusinessHours.

(** The two branches of [onNewAgentCreated] with a default business hour.
    If it is open now, the one call on [Users] is
    [addBusinessHourByAgentIds]: the agent gets the business hour and keeps
    the status it had.  If it is closed, the one call is
    [setLivechatStatus] with [NOT_AVAILABLE]: the agent has this status
    and its business hours are what they were. *)
Lemma onNewAgentCreated_branches
    (openNow : string → bool) (d : BusinessHour) (agentId : string)
    (users : Users) (u : User) :
  agents users !! agentId = Some u →
  (openNow (_id d) = true →
   ∃ u', agents (onNewAgentCreated (Some d) openNow agentId users) !! agentId
           = Some u' ∧
         _id d ∈ businessHours u' ∧
         statusLivechat u' = statusLivechat u ∧
         calls (onNewAgentCreated (Some d) openNow agentId users) =
         calls users ++ [Call_addBusinessHourByAgentIds [agentId] (_id d)]) ∧
  (openNow (_id d) = false →
   ∃ u', agents (onNewAgentCreated (Some d) openNow agentId users) !! agentId
           = Some u' ∧
         statusLivechat u' = Some NOT_AVAILABLE ∧
         businessHours u' = businessHours u ∧
         calls (onNewAgentCreated (Some d) openNow agentId users) =
         calls users ++ [Call_setLivechatStatus agentId NOT_AVAILABLE]).
Proof.
  intros Hu. split; intros Hnow.
  - rewrite onNewAgentCreated_open by done.
    unfold addBusinessHourByAgentIds, called. cbn.
    rewrite lookup_alter_eq, Hu. cbn. eexists. split; [reflexivity|].
    cbn. split; [|done]. apply elem_of_union_l, elem_of_singleton. done.
  - rewrite onNewAgentCreated_closed by done.
    unfold setLivechatStatus, called. cbn.
    rewrite lookup_alter_eq, Hu. cbn. eexists. split; [reflexivity|].
    cbn. done.
Qed.


(** Without a default business hour the hook makes no call at all. *)
Lemma onNewAgentCreated_no_default
    (openNow : string → bool) (agentId : string) (users : Users) :
  onNewAgentCreated None openNow agentId users = users.
Proof. reflexivity. Qed.

(** C2, as the code has it.  [allowAgentChangeServiceStatus] returns what
    [isAgentWithinBusinessHours] returns: true exactly when the agent is now
    inside an open window of one of its business hours, and false when it
    is outside all of them.  It changes no agent. *)
Theorem allowAgentChangeServiceStatus_within_business_hours
    (openNow : string → bool) (agentId : string) (users : Users) :
  ((allowAgentChangeServiceStatus openNow agentId users).1 = true ↔
   ∃ u b, agents users !! agentId = Some u ∧ b ∈ businessHours u ∧
          openNow b = true) ∧
  agents (allowAgentChangeServiceStatus openNow agentId users).2 = agents users.
Proof.
  unfold allowAgentChangeServiceStatus, isAgentWithinBusinessHours. cbn.
  split; [|done].
  destruct (agents users !! agentId) as [u|] eqn:Hu.
  - rewrite existsb_exists. split.
    + intros (b & Hin & Hb). exists u, b.
      apply list_elem_of_In, elem_of_elements in Hin. done.
    + intros (u' & b & [= <-] & Hin & Hb). exists b. split; [|done].
      by apply list_elem_of_In, elem_of_elements.
  - split; [done | by intros (? & ? & ? & _)].
Qed.

(** C2, as the spec states it, fails on an agent inside a window: the
    agent [agent-1] has the business hour [support-eu], which is open, and
    the function returns true. *)
Lemma allowAgentChangeServiceStatus_true_inside_window :
  (allowAgentChangeServiceStatus allOpen "agent-1" sampleUsers).1 = true ∧
  agents sampleUsers !! "agent-1" = Some engineManaged ∧
  "support-eu" ∈ businessHours engineManaged ∧
  allOpen "support-eu" = true.
Proof.
  split; [vm_compute; reflexivity|].
  split; [vm_compute; reflexivity|].
  split; [cbn; set_solver | reflexivity].
Qed.

(** C7. [changeAgentActiveStatus] writes nothing on an agent whose
    [statusDefault] is ['offline']: the agents are as they were.  On an
    agent with [livechatStatusSystemModified] true and another
    [statusDefault], or none, it writes the status and sets
    [livechatStatusSystemModified] to true, and changes no other agent. *)
Theorem changeAgentActiveStatus_guard
    (agentId : string) (status : ILivechatAgentStatus) (users : Users) (u : User) :
  agents users !! agentId = Some u →
  (statusDefault u = Some "offline" →
   agents (changeAgentActiveStatus agentId status users) = agents users) ∧
  (livechatStatusSystemModified u = Some true →
   statusDefault u ≠ Some "offline" →
   agents (changeAgentActiveStatus agentId status users) =
   <[agentId :=
       {| statusLivechat := Some status; statusDefault := statusDefault u;
          livechatStatusSystemModified := Some true;
          businessHours := businessHours u |}]> (agents users)).
Proof.
  intros Hu. unfold changeAgentActiveStatus, setLivechatStatusIf, called. cbn.
  rewrite Hu. split.
  - intros Hoff. rewrite Hoff. cbn.
    rewrite (bool_decide_eq_true_2 (Some "offline" = Some "offline")) by done.
    cbn. by rewrite andb_false_r.
  - intros Hsys Hdef. rewrite Hsys. cbn.
    rewrite (bool_decide_eq_true_2 (Some true = Some true)) by done.
    by rewrite (bool_decide_eq_false_2 (statusDefault u = Some "offline")).
Qed.

Lemma changeAgentActiveStatus_guard_witness :
  agents (changeAgentActiveStatus "agent-2" AVAILABLE sampleUsers)
    = agents sampleUsers ∧
  agents (changeAgentActiveStatus "agent-1" AVAILABLE sampleUsers) !! "agent-1"
    = Some {| statusLivechat := Some AVAILABLE; statusDefault := Some "online";
              livechatStatusSystemModified := Some true;
              businessHours := {["support-eu"]} |}.
Proof.
  split.
  - apply (proj1 (changeAgentActiveStatus_guard "agent-2" AVAILABLE sampleUsers
                    manuallyOffline ltac:(vm_compute; reflexivity))).
    reflexivity.
  - rewrite (proj2 (changeAgentActiveStatus_guard "agent-1" AVAILABLE sampleUsers
                      engineManaged ltac:(vm_compute; reflexivity))).
    + apply lookup_insert_eq.
    + reflexivity.
    + discriminate.
Defined.

(** The guard also keeps the write from an agent whose status the engine
    has not set. *)
Lemma changeAgentActiveStatus_not_engine_managed
    (agentId : string) (status : ILivechatAgentStatus) (users : Users) (u : User) :
  agents users !! agentId = Some u →
  livechatStatusSystemModified u ≠ Some true →
  agents (changeAgentActiveStatus agentId status users) = agents users.
Proof.
  intros Hu Hsys. unfold changeAgentActiveStatus, setLivechatStatusIf, called.
  cbn. rewrite Hu. cbn. by rewrite bool_decide_eq_false_2.
Qed.

(** C8. [onDisableBusinessHours] makes one call on [Users],
    [removeBusinessHoursFromAllUsers], and none that writes a status: every
    agent is still there, without business hours, and with the status,
    [statusDefault] and [livechatStatusSystemModified] it had. *)
Theorem onDisableBusinessHours_keeps_status (users : Users) :
  calls (onDisableBusinessHours users) =
    calls users ++ [Call_removeBusinessHoursFromAllUsers] ∧
  dom (agents (onDisableBusinessHours users)) = dom (agents users) ∧
  ∀ agentId u,
    agents users !! agentId = Some u →
    ∃ u', agents (onDisableBusinessHours users) !! agentId = Some u' ∧
          businessHours u' = ∅ ∧
          statusLivechat u' = statusLivechat u ∧
          statusDefault u' = statusDefault u ∧
          livechatStatusSystemModified u' = livechatStatusSystemModified u.
Proof.
  unfold onDisableBusinessHours, removeBusinessHoursFromAllUsers, called. cbn.
  split; [done|]. split; [apply dom_fmap_L|].
  intros agentId u Hu. rewrite lookup_fmap, Hu. cbn.
  eexists. split; [reflexivity | done].
Qed.

Lemma onDisableBusinessHours_keeps_status_witness :
  ∃ u', agents (onDisableBusinessHours sampleUsers) !! "agent-1" = Some u' ∧
        businessHours u' = ∅ ∧
        statusLivechat u' = Some NOT_AVAILABLE ∧
        statusDefault u' = Some "online" ∧
        livechatStatusSystemModified u' = Some true.
Proof.
  apply (proj2 (proj2 (onDisableBusinessHours_keeps_status sampleUsers))
           "agent-1" engineManaged).
  vm_compute. reflexivity.
Defined.

End BehaviorTheorems.

(** ** More on the conversion and the saving *)

Module TypeExtras.
Import Moment AbstractBusinessHourType Notions MomentFacts TypeFacts Samples.
Import MoreNotions.

Lemma convertFrom_shape (host : Host) (timezoneName : string)
    (hours : list WorkHour) :
  Forall2 (fun hour hour' => day hour' = day hour ∧ open hour' = open hour)
    hours (convertFrom host timezoneName hours).2.
Proof.
  induction hours as [|hour hours IH]; cbn; [constructor|].
  destruct (rejected host timezoneName hour).
  - cbn. apply Forall2_same_length_lookup_2; [done|].
    intros i x y Hx Hy. rewrite Hx in Hy. by injection Hy as <-.
  - destruct (convertFrom host timezoneName hours) as [r done]. cbn in *.
    constructor; [by split | done].
Qed.

(** X1. Whether it returns or throws, [convertWorkHours] leaves the draft
    with its [_id], [active] and [timezone], with as many windows as before,
    each with the [day] and the [open] it had. *)
Theorem convertWorkHours_keeps_shape (host : Host) (b : BusinessHour) :
  _id (convertWorkHours host b).2 = _id b ∧
  active (convertWorkHours host b).2 = active b ∧
  timezone_name (convertWorkHours host b).2 = timezone_name b ∧
  Forall2 (fun hour hour' => day hour' = day hour ∧ open hour' = open hour)
    (workHours b) (workHours (convertWorkHours host b).2).
Proof.
  rewrite convertWorkHours_run. cbn. repeat split. apply convertFrom_shape.
Qed.

(** X2. What [convertWorkHours] returns still holds the draft: the [time]
    of every converted start and finish is the value the draft had, so
    that taking these values back gives the windows of the draft. *)
Theorem convertWorkHours_keeps_original
    (host : Host) (b b' : BusinessHour) :
  (convertWorkHours host b).1 = inr b' →
  originalHour <$> workHours b' = workHours b.
Proof.
  intros Hrun. apply TypeTheorems.convertWorkHours_returns in Hrun as [_ ->].
  cbn. rewrite <- list_fmap_compose.
  rewrite <- (list_fmap_id (workHours b)) at 2.
  apply list_fmap_ext. intros i hour _. by destruct hour.
Qed.

Lemma convertWorkHours_keeps_original_witness :
  ∃ b', (convertWorkHours serverOnUtc newDraft).1 = inr b' ∧
        originalHour <$> workHours b' = [monday; sunday].
Proof.
  eexists. split; [vm_compute; reflexivity|].
  exact (convertWorkHours_keeps_original serverOnUtc newDraft _ eq_refl).
Defined.

(** X3. The message of the error tells the two failures apart: where the
    first window that fails has its finish before its start the message is
    the one of a finish before the start, and where the two instants are
    the same it is the one of equal times. *)
Theorem convertWorkHours_error_message
    (host : Host) (b : BusinessHour) (k : nat) (hour : WorkHour) (s f : Z) :
  workHours b !! k = Some hour →
  open hour = true →
  instantOf (startUtc host (timezone_name b) hour) = Some s →
  instantOf (finishUtc host (timezone_name b) hour) = Some f →
  f ≤ s →
  (∀ j h, (j < k)%nat → workHours b !! j = Some h →
          ¬ (open h = true ∧ finishNotAfterStart host (timezone_name b) h)) →
  (convertWorkHours host b).1 =
  inl (if f <? s
       then "error-business-hour-finish-time-before-start-time"
       else "error-business-hour-finish-time-equals-start-time").
Proof.
  intros Hk Hopen Hs Hf Hle Hbefore.
  assert (rejected host (timezone_name b) hour =
          Some (if f <? s
                then "error-business-hour-finish-time-before-start-time"
                else "error-business-hour-finish-time-equals-start-time"))
    as Hrej.
  { unfold rejected.
    rewrite (startUtc_instant host _ _ _ Hs), (finishUtc_instant host _ _ _ Hf).
    rewrite Hopen. cbn. destruct (f <? s) eqn:Hlt; [done|].
    by replace (s =? f) with true by lia. }
  assert (∀ j h, (j < k)%nat → workHours b !! j = Some h →
                 rejected host (timezone_name b) h = None) as Hnone.
  { intros j h Hj Hh. apply eq_None_not_Some. intros Hsome.
    apply (Hbefore j h Hj Hh). by apply rejected_is_Some. }
  rewrite convertWorkHours_run. cbn.
  by rewrite (convertFrom_first host _ _ k hour _ Hk Hrej Hnone).
Qed.

Lemma convertWorkHours_error_message_witness :
  (convertWorkHours serverOnUtc reversedDraft).1 =
  inl "error-business-hour-finish-time-before-start-time".
Proof.
  apply (convertWorkHours_error_message serverOnUtc reversedDraft 1%nat
           wednesdayReversed 35100 35040 eq_refl eq_refl eq_refl eq_refl).
  - lia.
  - intros j h Hj Hh [Hopen (s & f & Hs & Hf & Hle)].
    destruct j as [|j]; [|lia]. injection Hh as <-.
    vm_compute in Hs, Hf. injection Hs as <-. injection Hf as <-. lia.
Defined.

Lemma composite_InvalidDate (host : Host) (v : HourValue) :
  composite host InvalidDate v = Converted v invalidDate invalidDate.
Proof. reflexivity. Qed.

Lemma instantOf_None (m : Moment) : instantOf m = None → m = InvalidDate.
Proof. by destruct m. Qed.

Lemma rejected_invalid (host : Host) (timezoneName : string) (hour : WorkHour) :
  instantOf (startUtc host timezoneName hour) = None ∨
  instantOf (finishUtc host timezoneName hour) = None →
  rejected host timezoneName hour = None.
Proof.
  intros H. apply eq_None_not_Some. intros Hsome.
  apply rejected_is_Some in Hsome as [_ (s & f & Hs & Hf & _)].
  destruct H as [H | H]; congruence.
Qed.

Lemma convertFrom_accepts (host : Host) (timezoneName : string)
    (hours : list WorkHour) :
  (∀ hour, hour ∈ hours → rejected host timezoneName hour = None) →
  (convertFrom host timezoneName hours).1 = None.
Proof.
  intros Hall.
  destruct (convertFrom host timezoneName hours).1 as [e|] eqn:He; [|done].
  destruct (proj1 (convertFrom_is_Some host timezoneName hours))
    as (hour & Hin & Hrej); [by rewrite He|].
  rewrite (Hall hour Hin) in Hrej. by destruct Hrej.
Qed.

(** X4. A time that is no valid moment is not an error: the validation
    passes over a window whose start or finish is invalid, even an open
    one, and what is stored for the invalid value, as [utc] and as [cron],
    is the text [Invalid date]. *)
Theorem convertWorkHours_invalid_moment (host : Host) (b : BusinessHour) :
  ((∀ hour, hour ∈ workHours b →
      instantOf (startUtc host (timezone_name b) hour) = None ∨
      instantOf (finishUtc host (timezone_name b) hour) = None) →
   ∃ b', (convertWorkHours host b).1 = inr b') ∧
  (∀ b' i hour,
     (convertWorkHours host b).1 = inr b' →
     workHours b !! i = Some hour →
     ∃ hour', workHours b' !! i = Some hour' ∧
       (instantOf (startUtc host (timezone_name b) hour) = None →
        start hour' = Converted (start hour) invalidDate invalidDate) ∧
       (instantOf (finishUtc host (timezone_name b) hour) = None →
        finish hour' = Converted (finish hour) invalidDate invalidDate)).
Proof.
  split.
  - intros Hall. rewrite convertWorkHours_run. cbn.
    rewrite convertFrom_accepts; [eauto|].
    intros hour Hin. apply rejected_invalid. auto.
  - intros b' i hour Hrun Hi.
    apply TypeTheorems.convertWorkHours_returns in Hrun as [_ ->]. cbn.
    rewrite list_lookup_fmap, Hi. cbn. eexists. split; [reflexivity|].
    unfold converted. cbn. split; intros Hnone;
      by rewrite (instantOf_None _ Hnone), composite_InvalidDate.
Qed.

Lemma convertWorkHours_invalid_moment_witness :
  ∃ b' hour',
    (convertWorkHours serverOnUtc overflowDraft).1 = inr b' ∧
    workHours b' !! 0%nat = Some hour' ∧
    start hour' = Converted (Plain "25:00") invalidDate invalidDate.
Proof.
  destruct (convertWorkHours_invalid_moment serverOnUtc overflowDraft)
    as [_ Hstored].
  destruct (Hstored _ 0%nat mondayOverflow eq_refl eq_refl)
    as (hour' & Hi & Hstart & _).
  eexists. exists hour'. split; [reflexivity|]. split; [exact Hi|].
  apply Hstart. reflexivity.
Defined.

(** *** Zones with one offset *)

Lemma dayTimeAt_week (k x : Z) :
  dayTimeAt (k * minutesPerWeek + x) = dayTimeAt x.
Proof.
  unfold dayTimeAt, minutesPerWeek.
  f_equal; [|f_equal; [|f_equal]]; f_equal; lia.
Qed.

Lemma dayTimeAt_weekStart (host : Host) (x : Z) :
  dayTimeAt (weekStart host + x) = dayTimeAt x.
Proof. apply dayTimeAt_week. Qed.

Section FixedOffset.
Context (host : Host) (timezoneName : string) (o : Z).
Context (Hzone : ∀ c, zoneParse host timezoneName c = o).

Lemma startUtc_fixed_offset (hour : WorkHour) (w : Z) :
  startRead hour = InWeek w →
  startUtc host timezoneName hour = At (weekStart host + w - o) InUtc.
Proof.
  unfold startRead, startUtc, tz. intros ->. cbn. by rewrite Hzone.
Qed.

Lemma finishUtc_fixed_offset (hour : WorkHour) (w : Z) :
  finishRead hour = InWeek w →
  finishUtc host timezoneName hour = At (weekStart host + w - o) InUtc.
Proof.
  unfold finishRead, finishUtc, tz. intros ->. cbn. by rewrite Hzone.
Qed.

Lemma rejected_fixed_offset (hour : WorkHour) (ws wf : Z) :
  startRead hour = InWeek ws →
  finishRead hour = InWeek wf →
  rejected host timezoneName hour =
  if open hour && (wf <? ws)
  then Some "error-business-hour-finish-time-before-start-time"
  else if open hour && (ws =? wf)
  then Some "error-business-hour-finish-time-equals-start-time"
  else None.
Proof.
  intros Hs Hf. unfold rejected.
  rewrite (startUtc_fixed_offset _ _ Hs), (finishUtc_fixed_offset _ _ Hf).
  cbn.
  replace (weekStart host + wf - o <? weekStart host + ws - o)
    with (wf <? ws) by lia.
  by replace (weekStart host + ws - o =? weekStart host + wf - o)
    with (ws =? wf) by lia.
Qed.

(** The server has one offset too. *)
Context (Hserver : serverHasOneOffset host (utcOffset host)).

Lemma serverKeepsOffset_always (t : Z) : serverKeepsOffset host t.
Proof. split; apply Hserver. Qed.

Lemma composite_fixed_offset (w : Z) (v : HourValue) :
  composite host (At (weekStart host + w - o) InUtc) v =
  Converted v (dayTimeAt (w - o)) (dayTimeAt (w - o + utcOffset host)).
Proof.
  rewrite composite_At, dayTimeAt_cronCivil by apply serverKeepsOffset_always.
  replace (weekStart host + w - o) with (weekStart host + (w - o)) by lia.
  replace (weekStart host + (w - o) + utcOffset host)
    with (weekStart host + (w - o + utcOffset host)) by lia.
  by rewrite !dayTimeAt_weekStart.
Qed.

Lemma converted_fixed_offset (hour : WorkHour) (ws wf : Z) :
  startRead hour = InWeek ws →
  finishRead hour = InWeek wf →
  converted host timezoneName hour =
  {| day := day hour;
     start := Converted (start hour) (dayTimeAt (ws - o))
                (dayTimeAt (ws - o + utcOffset host));
     finish := Converted (finish hour) (dayTimeAt (wf - o))
                 (dayTimeAt (wf - o + utcOffset host));
     open := open hour |}.
Proof.
  intros Hs Hf. unfold converted.
  rewrite (startUtc_fixed_offset _ _ Hs), (finishUtc_fixed_offset _ _ Hf).
  by rewrite !composite_fixed_offset.
Qed.

End FixedOffset.

(** X5. In a zone with one offset [o] and on a server whose zone has one
    offset, what is stored for a window whose day and times are read as a
    minute of the week does not depend on the week of the save: [utc] is
    the day and time of the authored minute of the week less [o], and
    [cron] the day and time of that plus the offset of the server, both
    taken around the week. *)
Theorem convertWorkHours_fixed_offset
    (host : Host) (b b' : BusinessHour) (i : nat) (hour : WorkHour)
    (ws wf o : Z) :
  (∀ c, zoneParse host (timezone_name b) c = o) →
  serverHasOneOffset host (utcOffset host) →
  (convertWorkHours host b).1 = inr b' →
  workHours b !! i = Some hour →
  startRead hour = InWeek ws →
  finishRead hour = InWeek wf →
  workHours b' !! i =
  Some {| day := day hour;
          start := Converted (start hour) (dayTimeAt (ws - o))
                     (dayTimeAt (ws - o + utcOffset host));
          finish := Converted (finish hour) (dayTimeAt (wf - o))
                      (dayTimeAt (wf - o + utcOffset host));
          open := open hour |}.
Proof.
  intros Hzone Hserver Hrun Hi Hs Hf.
  apply TypeTheorems.convertWorkHours_returns in Hrun as [_ ->]. cbn.
  rewrite list_lookup_fmap, Hi. cbn.
  by rewrite (converted_fixed_offset host _ o Hzone Hserver hour ws wf).
Qed.

Lemma convertWorkHours_fixed_offset_witness :
  ∃ b', (convertWorkHours serverOnUtcLater nightShift).1 = inr b' ∧
    workHours b' !! 0%nat =
    Some {| day := "Sunday";
            start := Converted (Plain "00:30")
                       {| dayOfWeek := "Saturday"; time := "23:30" |}
                       {| dayOfWeek := "Saturday"; time := "23:30" |};
            finish := Converted (Plain "08:00")
                        {| dayOfWeek := "Sunday"; time := "07:00" |}
                        {| dayOfWeek := "Sunday"; time := "07:00" |};
            open := true |}.
Proof.
  eexists. split; [vm_compute; reflexivity|].
  exact (convertWorkHours_fixed_offset serverOnUtcLater nightShift _ 0%nat
           sunday 30 480 60 (fun _ => eq_refl) (fun _ => conj eq_refl eq_refl)
           eq_refl eq_refl eq_refl eq_refl).
Defined.

(** X6. On a server whose zone has one offset, the one of the zone of the
    schedule, the [cron] of a window whose day and times are read as a
    minute of the week is the authored day and time themselves, in the
    form [dddd] and [HH:mm] print them. *)
Theorem cron_is_authored_time_in_zone_of_server
    (host : Host) (b b' : BusinessHour) (i : nat) (hour : WorkHour)
    (ws wf : Z) :
  (∀ c, zoneParse host (timezone_name b) c = utcOffset host) →
  serverHasOneOffset host (utcOffset host) →
  (convertWorkHours host b).1 = inr b' →
  workHours b !! i = Some hour →
  startRead hour = InWeek ws →
  finishRead hour = InWeek wf →
  ∃ hour', workHours b' !! i = Some hour' ∧
           cronOf (start hour') = Some (dayTimeAt ws) ∧
           cronOf (finish hour') = Some (dayTimeAt wf).
Proof.
  intros Hzone Hserver Hrun Hi Hs Hf.
  apply TypeTheorems.convertWorkHours_returns in Hrun as [_ ->]. cbn.
  rewrite list_lookup_fmap, Hi. cbn. eexists. split; [reflexivity|].
  rewrite (converted_fixed_offset host _ _ Hzone Hserver hour ws wf) by done.
  cbn. split; do 2 f_equal; lia.
Qed.

Lemma cron_is_authored_time_in_zone_of_server_witness :
  ∃ b' hour',
    (convertWorkHours serverInMadrid nightShift).1 = inr b' ∧
    workHours b' !! 0%nat = Some hour' ∧
    cronOf (start hour') = Some {| dayOfWeek := "Sunday"; time := "00:30" |} ∧
    cronOf (finish hour') = Some {| dayOfWeek := "Sunday"; time := "08:00" |}.
Proof.
  destruct (cron_is_authored_time_in_zone_of_server serverInMadrid nightShift
              _ 0%nat sunday 30 480 (fun _ => eq_refl)
              (fun _ => conj eq_refl eq_refl) eq_refl eq_refl
              eq_refl eq_refl) as (hour' & Hi & Hs & Hf).
  eexists. exists hour'. split; [reflexivity|]. auto.
Defined.

Lemma convertFrom_any_week (host1 host2 : Host) (timezoneName : string)
    (o : Z) (hours : list WorkHour) :
  (∀ c, zoneParse host1 timezoneName c = o) →
  (∀ c, zoneParse host2 timezoneName c = o) →
  serverHasOneOffset host1 (utcOffset host1) →
  serverHasOneOffset host2 (utcOffset host2) →
  utcOffset host1 = utcOffset host2 →
  (∀ hour, hour ∈ hours →
     (∃ ws, startRead hour = InWeek ws) ∧ (∃ wf, finishRead hour = InWeek wf)) →
  convertFrom host1 timezoneName hours = convertFrom host2 timezoneName hours.
Proof.
  intros H1 H2 Hs1 Hs2 Hoff.
  induction hours as [|hour hours IH]; intros Hwf; [done|].
  destruct (Hwf hour) as [[ws Hs] [wf Hf]]; [left|].
  cbn [convertFrom].
  rewrite (rejected_fixed_offset host1 _ o H1 hour ws wf Hs Hf).
  rewrite (rejected_fixed_offset host2 _ o H2 hour ws wf Hs Hf).
  rewrite (converted_fixed_offset host1 _ o H1 Hs1 hour ws wf Hs Hf).
  rewrite (converted_fixed_offset host2 _ o H2 Hs2 hour ws wf Hs Hf).
  rewrite IH, Hoff; [done|]. intros h Hin. apply Hwf. by right.
Qed.

(** X7. In a zone with one offset and on servers whose zone has one and
    the same offset, a draft whose days and times are all read as minutes
    of the week is converted, or refused, in the same way at every moment:
    the outcome does not depend on the current instant. *)
Theorem convertWorkHours_any_week
    (host1 host2 : Host) (b : BusinessHour) (o : Z) :
  (∀ c, zoneParse host1 (timezone_name b) c = o) →
  (∀ c, zoneParse host2 (timezone_name b) c = o) →
  serverHasOneOffset host1 (utcOffset host1) →
  serverHasOneOffset host2 (utcOffset host2) →
  utcOffset host1 = utcOffset host2 →
  (∀ hour, hour ∈ workHours b →
     (∃ ws, startRead hour = InWeek ws) ∧ (∃ wf, finishRead hour = InWeek wf)) →
  convertWorkHours host1 b = convertWorkHours host2 b.
Proof.
  intros H1 H2 Hs1 Hs2 Hoff Hwf. rewrite !convertWorkHours_run.
  by rewrite (convertFrom_any_week host1 host2 _ o _ H1 H2 Hs1 Hs2 Hoff Hwf).
Qed.

Lemma convertWorkHours_any_week_witness :
  convertWorkHours serverOnUtc brokenDraft =
  convertWorkHours serverOnUtcLater brokenDraft.
Proof.
  apply (convertWorkHours_any_week serverOnUtc serverOnUtcLater brokenDraft 60).
  - reflexivity.
  - reflexivity.
  - intros x. split; reflexivity.
  - intros x. split; reflexivity.
  - reflexivity.
  - intros hour Hin. cbn in Hin.
    repeat (apply elem_of_cons in Hin as [-> | Hin]);
      [| | | | by apply elem_of_nil in Hin];
      split; eexists; vm_compute; reflexivity.
Defined.

(** *** A save that goes through *)

(** X8. When no window fails the validation, [baseSaveBusinessHour] returns
    and writes once: an [updateOne] under the [_id] of the draft, which it
    returns, or, for a draft without [_id], an [insertOne], whose
    [insertedId] it returns.  What it writes is the caller's draft as the
    call leaves it, with [active] made a boolean and every window
    converted. *)
Theorem baseSaveBusinessHour_saves_once (host : Host) (s : Saving) :
  (∀ hour, hour ∈ workHours (businessHourData s) →
     ¬ (open hour = true ∧
        finishNotAfterStart host (timezone_name (businessHourData s)) hour)) →
  ∃ data repository,
    baseSaveBusinessHour host s =
      (inr (if negb (String.eqb (_id data) EmptyString) then _id data
            else createPk (BusinessHourRepository s)
                   (documents (BusinessHourRepository s))),
       {| businessHourData := data; BusinessHourRepository := repository |}) ∧
    writes repository =
      writes (BusinessHourRepository s) ++
      [if negb (String.eqb (_id data) EmptyString)
       then UpdateOne (_id data) data else InsertOne data] ∧
    _id data = _id (businessHourData s) ∧
    active data = JsBoolean (Boolean (active (businessHourData s))) ∧
    timezone_name data = timezone_name (businessHourData s) ∧
    workHours data =
      converted host (timezone_name (businessHourData s)) <$>
        workHours (businessHourData s).
Proof.
  intros Hvalid.
  set (d := set_active (JsBoolean (Boolean (active (businessHourData s))))
              (businessHourData s)).
  assert ((convertFrom host (timezone_name d) (workHours d)).1 = None) as Hnone.
  { apply convertFrom_accepts. intros hour Hin. apply eq_None_not_Some.
    intros Hsome. apply (Hvalid hour Hin). by apply rejected_is_Some. }
  pose proof (convertWorkHours_run host d) as Hrun. cbn zeta in Hrun.
  rewrite Hnone, (convertFrom_None host _ _ Hnone) in Hrun.
  set (data := set_workHours (converted host (timezone_name d) <$> workHours d) d)
    in Hrun.
  exists data.
  unfold baseSaveBusinessHour.
  unfold mbind, M_bind, bind, onData, onRepository, get, put, mret, M_ret, ret.
  cbn. fold d. rewrite Hrun. cbn.
  destruct (negb (String.eqb (_id (businessHourData s)) EmptyString)); cbn;
    eexists; (split; [reflexivity|]); cbn; done.
Qed.

Lemma baseSaveBusinessHour_saves_once_witness :
  ∃ data repository,
    baseSaveBusinessHour serverOnUtc
      {| businessHourData := newDraft;
         BusinessHourRepository := emptyRepository |} =
      (inr "new-id",
       {| businessHourData := data; BusinessHourRepository := repository |}) ∧
    writes repository = [InsertOne data] ∧
    active data = JsBoolean true.
Proof.
  destruct (baseSaveBusinessHour_saves_once serverOnUtc
              {| businessHourData := newDraft;
                 BusinessHourRepository := emptyRepository |})
    as (data & repository & Hrun & Hwrites & Hid & Hactive & _).
  - intros hour Hin [Hopen (s & f & Hs & Hf & Hle)]. cbn in Hin.
    repeat (apply elem_of_cons in Hin as [-> | Hin]);
      [| | by apply elem_of_nil in Hin];
      vm_compute in Hs, Hf; injection Hs as <-; injection Hf as <-; lia.
  - exists data, repository. cbn in Hid. rewrite Hid in Hrun, Hwrites.
    split; [exact Hrun|]. split; [exact Hwrites | exact Hactive].
Defined.

(** X9. For an offset of a whole number of hours, [getUTCFromTimezone]
    without a zone returns the hours as an integer, with a minus sign when
    negative and no sign otherwise; with a zone of that offset it returns
    the sign, plus included, the hours on two digits and [:00]. *)
Theorem getUTCFromTimezone_whole_hours
    (host : Host) (name : string) (k : Z) :
  utcOffset host = 60 * k →
  name ≠ EmptyString →
  zoneUtcOffset host name (now host) = 60 * k →
  getUTCFromTimezone host None =
    (if k <? 0 then "-" else EmptyString) +:+ decimal (Z.abs k) ∧
  getUTCFromTimezone host (Some name) =
    (if k <? 0 then "-" else "+") +:+ zeroFill2 (Z.abs k) +:+ ":00".
Proof.
  intros Hoff Hname Hzone.
  assert (Z.abs (60 * k) / 60 = Z.abs k) as Hdiv by lia.
  assert (Z.abs (60 * k) mod 60 = 0) as Hmod by lia.
  assert ((60 * k <? 0) = (k <? 0)) as Hsign by lia.
  split.
  - unfold getUTCFromTimezone, hoursToString, fraction.
    rewrite Hoff, Hdiv, Hmod, Hsign.
    cbn. by rewrite append_empty_r.
  - unfold getUTCFromTimezone. apply String.eqb_neq in Hname. rewrite Hname.
    unfold format, tzNow. cbn [formatTokens offsetOf]. rewrite append_empty_r.
    unfold formatOffset. by rewrite Hzone, Hdiv, Hmod, Hsign.
Qed.

Lemma getUTCFromTimezone_whole_hours_witness :
  getUTCFromTimezone serverTwoHoursEast None = "2" ∧
  getUTCFromTimezone serverTwoHoursEast (Some "Europe/Kiev") = "+02:00".
Proof.
  apply (getUTCFromTimezone_whole_hours serverTwoHoursEast "Europe/Kiev" 2).
  - reflexivity.
  - discriminate.
  - reflexivity.
Defined.

End TypeExtras.

(** ** More on the hooks on the agents *)

Module BehaviorExtras.
Import AbstractBusinessHourBehavior Samples.

(** The agent after a write of [changeAgentActiveStatus]. *)
Lemma changeAgentActiveStatus_agents
    (agentId : string) (status : ILivechatAgentStatus) (users : Users) :
  agents (changeAgentActiveStatus agentId status users) =
  match agents users !! agentId with
  | Some u =>
      if bool_decide (livechatStatusSystemModified u = Some true) &&
         negb (bool_decide (statusDefault u = Some "offline"))
      then <[agentId :=
               {| statusLivechat := Some status;
                  statusDefault := statusDefault u;
                  livechatStatusSystemModified := Some true;
                  businessHours := businessHours u |}]> (agents users)
      else agents users
  | None => agents users
  end.
Proof.
  unfold changeAgentActiveStatus, setLivechatStatusIf, called. cbn.
  destruct (agents users !! agentId) as [u|]; [|done].
  by rewrite andb_true_r.
Qed.

(** X10. Of two calls of [changeAgentActiveStatus] on an agent the last one
    decides: the agents are as after the second call alone.  In particular
    a write of the engine does not close the guard to the next one, and a
    call made twice changes nothing more than made once. *)
Theorem changeAgentActiveStatus_last_call_decides
    (agentId : string) (status1 status2 : ILivechatAgentStatus) (users : Users) :
  agents (changeAgentActiveStatus agentId status2
            (changeAgentActiveStatus agentId status1 users)) =
  agents (changeAgentActiveStatus agentId status2 users).
Proof.
  rewrite !changeAgentActiveStatus_agents.
  destruct (agents users !! agentId) as [u|] eqn:Hu; [|by rewrite Hu].
  destruct (bool_decide (livechatStatusSystemModified u = Some true) &&
            negb (bool_decide (statusDefault u = Some "offline"))) eqn:Hguard.
  - rewrite lookup_insert_eq. cbn.
    apply andb_true_iff in Hguard as [_ Hdefault]. rewrite Hdefault.
    rewrite (bool_decide_eq_true_2 (Some true = Some true)) by done. cbn.
    by rewrite insert_insert_eq.
  - by rewrite Hu, Hguard.
Qed.

(** X11. [changeAgentActiveStatus] adds and removes no agent, changes no
    agent but the one named, and of that one neither the [statusDefault]
    that the agent has chosen nor the business hours. *)
Theorem changeAgentActiveStatus_frame
    (agentId : string) (status : ILivechatAgentStatus) (users : Users) :
  dom (agents (changeAgentActiveStatus agentId status users)) =
    dom (agents users) ∧
  ∀ id u,
    agents users !! id = Some u →
    ∃ u', agents (changeAgentActiveStatus agentId status users) !! id = Some u' ∧
          statusDefault u' = statusDefault u ∧
          businessHours u' = businessHours u ∧
          (id ≠ agentId → u' = u).
Proof.
  rewrite changeAgentActiveStatus_agents.
  destruct (agents users !! agentId) as [a|] eqn:Ha.
  2:{ split; [done|]. intros id u Hu. exists u. eauto. }
  destruct (_ && _).
  2:{ split; [done|]. intros id u Hu. exists u. eauto. }
  split.
  - by apply dom_insert_lookup_L.
  - intros id u Hu. destruct (decide (id = agentId)) as [-> | Hne].
    + rewrite lookup_insert_eq. rewrite Ha in Hu. injection Hu as Hu.
      subst a. eexists. split; [reflexivity|]. cbn. repeat split; done.
    + rewrite lookup_insert_ne by done. exists u. eauto.
Qed.

Lemma changeAgentActiveStatus_frame_witness :
  ∃ u', agents (changeAgentActiveStatus "agent-1" AVAILABLE sampleUsers)
          !! "agent-2" = Some u' ∧ u' = manuallyOffline.
Proof.
  destruct (proj2 (changeAgentActiveStatus_frame "agent-1" AVAILABLE sampleUsers)
              "agent-2" manuallyOffline) as (u' & Hu' & _ & _ & Hsame).
  - vm_compute. reflexivity.
  - exists u'. split; [exact Hu'|]. apply Hsame. discriminate.
Defined.

(** X12. Without a default business hour [onNewAgentCreated] makes no
    call on [Users] and changes nothing.  With one it makes exactly one
    call, [addBusinessHourByAgentIds] for the agent and the default
    business hour or [setLivechatStatus] of the agent to [NOT_AVAILABLE].
    In every case it adds and removes no agent and changes no agent but
    the new one. *)
Theorem onNewAgentCreated_frame
    (findOneDefaultBusinessHour : option BusinessHour)
    (openNow : string → bool) (agentId : string) (users : Users) :
  (findOneDefaultBusinessHour = None →
   onNewAgentCreated findOneDefaultBusinessHour openNow agentId users = users) ∧
  (∀ d, findOneDefaultBusinessHour = Some d →
     ∃ call,
       calls (onNewAgentCreated findOneDefaultBusinessHour openNow agentId users)
         = calls users ++ [call] ∧
       (call = Call_addBusinessHourByAgentIds [agentId] (_id d) ∨
        call = Call_setLivechatStatus agentId NOT_AVAILABLE)) ∧
  dom (agents (onNewAgentCreated findOneDefaultBusinessHour openNow agentId
                 users)) = dom (agents users) ∧
  ∀ id, id ≠ agentId →
    agents (onNewAgentCreated findOneDefaultBusinessHour openNow agentId users)
      !! id = agents users !! id.
Proof.
  destruct findOneDefaultBusinessHour as [d|].
  2:{ cbn. split; [done|]. split; [by intros d [=]|]. done. }
  split; [by intros [=]|].
  destruct (openNow (_id d)) eqn:Hopen.
  - rewrite (BehaviorTheorems.onNewAgentCreated_open openNow d agentId users Hopen).
    unfold addBusinessHourByAgentIds, called. cbn.
    split; [intros d' [= <-]; eexists; split; [reflexivity | by left]|].
    split; [apply dom_alter_L|]. intros id Hne. by apply lookup_alter_ne.
  - rewrite (BehaviorTheorems.onNewAgentCreated_closed openNow d agentId users Hopen).
    unfold setLivechatStatus, called. cbn.
    split; [intros d' [= <-]; eexists; split; [reflexivity | by right]|].
    split; [apply dom_alter_L|]. intros id Hne. by apply lookup_alter_ne.
Qed.

Lemma onNewAgentCreated_frame_witness :
  onNewAgentCreated None allOpen "agent-new" sampleUsers = sampleUsers ∧
  agents (onNewAgentCreated (Some supportEU) allOpen "agent-new" sampleUsers)
    !! "agent-1" = Some engineManaged.
Proof.
  split.
  - apply (proj1 (onNewAgentCreated_frame None allOpen "agent-new" sampleUsers)).
    reflexivity.
  - rewrite (proj2 (proj2 (proj2 (onNewAgentCreated_frame (Some supportEU)
                                    allOpen "agent-new" sampleUsers)))
               "agent-1").
    + vm_compute. reflexivity.
    + discriminate.
Defined.

End BehaviorExtras.

(** ** The callbacks of the tags field *)

Module TagsTheorems.
Import Tags MoreNotions.

Lemma trimStart_white (s : JSString) :
  Forall (fun c => isWhiteSpace c = true) (trimStart s) ↔
  Forall (fun c => isWhiteSpace c = true) s.
Proof.
  induction s as [|c s IH]; [done|]. cbn.
  destruct (isWhiteSpace c) eqn:Hc; [|done].
  rewrite IH. split; [by constructor | by inversion 1].
Qed.

Lemma trimStart_nil (s : JSString) :
  trimStart s = [] ↔ Forall (fun c => isWhiteSpace c = true) s.
Proof.
  induction s as [|c s IH]; [done|]. cbn.
  destruct (isWhiteSpace c) eqn:Hc.
  - rewrite IH. split; [by constructor | by inversion 1].
  - split; [done|]. inversion 1; congruence.
Qed.

(** [trim] leaves nothing exactly of the strings made of white space. *)
Lemma trim_nil (s : JSString) :
  trim s = [] ↔ Forall (fun c => isWhiteSpace c = true) s.
Proof.
  unfold trim, trimEnd.
  rewrite <- (trimStart_white s), <- (Forall_reverse _ (trimStart s)).
  rewrite <- trimStart_nil. split.
  - intros H. apply (f_equal reverse) in H. by rewrite reverse_involutive in H.
  - by intros ->.
Qed.

Lemma blank_refused (s : JSString) :
  bool_decide (s = []) || bool_decide (trim s = []) = true ↔
  Forall (fun c => isWhiteSpace c = true) s.
Proof.
  rewrite orb_true_iff, !bool_decide_eq_true, trim_nil. split.
  - intros [-> | H]; [constructor | done].
  - by right.
Qed.

Lemma handleTagTextSubmit_handler
    (tags : list JSString) (t : string → string) (tagValue : JSString)
    (l : list JSString) :
  handler l ∈ handleTagTextSubmit tags t tagValue →
  l = tags ++ [tagValue] ∧ tagValue ∉ tags.
Proof.
  unfold handleTagTextSubmit. intros Hin.
  destruct (_ || _).
  { repeat (apply elem_of_cons in Hin as [[=] | Hin]).
    by apply elem_of_nil in Hin. }
  case_bool_decide as Hmem.
  { repeat (apply elem_of_cons in Hin as [[=] | Hin]).
    by apply elem_of_nil in Hin. }
  apply elem_of_cons in Hin as [[= ->] | Hin]; [done|].
  apply elem_of_cons in Hin as [[=] | Hin]. by apply elem_of_nil in Hin.
Qed.

Section WithProps.
Context (tags : list JSString) (t : string → string).

(** X13. [handleTagTextSubmit] passes a list to the handler exactly when
    the value has a character that is no white space and is not among the
    tags yet; the list is then the tags followed by the value as typed,
    white space around it included. *)
Theorem handleTagTextSubmit_accepts (tagValue : JSString) (l : list JSString) :
  handler l ∈ handleTagTextSubmit tags t tagValue ↔
  l = tags ++ [tagValue] ∧
  ¬ Forall (fun c => isWhiteSpace c = true) tagValue ∧
  tagValue ∉ tags.
Proof.
  unfold handleTagTextSubmit. rewrite <- blank_refused.
  destruct (bool_decide (tagValue = []) || bool_decide (trim tagValue = [])).
  - split; [|by intros (_ & H & _)].
    intros H. repeat (apply elem_of_cons in H as [[=] | H]).
    by apply elem_of_nil in H.
  - case_bool_decide as Hin.
    + split; [|by intros (_ & _ & H)].
      intros H. repeat (apply elem_of_cons in H as [[=] | H]).
      by apply elem_of_nil in H.
    + split.
      * intros H. apply elem_of_cons in H as [[= ->] | H]; [done|].
        apply elem_of_cons in H as [[=] | H]. by apply elem_of_nil in H.
      * intros (-> & _ & _). left.
Qed.

(** X14. A list of tags without a tag twice stays so: whatever
    [handleTagTextSubmit] passes to the handler has no tag twice. *)
Theorem handleTagTextSubmit_no_duplicate (tagValue : JSString) (l : list JSString) :
  NoDup tags →
  handler l ∈ handleTagTextSubmit tags t tagValue →
  NoDup l.
Proof.
  intros Hnodup Hin. unfold handleTagTextSubmit in Hin.
  destruct (_ || _).
  { repeat (apply elem_of_cons in Hin as [[=] | Hin]).
    by apply elem_of_nil in Hin. }
  case_bool_decide as Hmem.
  { repeat (apply elem_of_cons in Hin as [[=] | Hin]).
    by apply elem_of_nil in Hin. }
  apply elem_of_cons in Hin as [[= ->] | Hin].
  - apply NoDup_app. split; [done|]. split; [|apply NoDup_singleton].
    intros x Hx Hx'. apply list_elem_of_singleton in Hx' as ->. done.
  - apply elem_of_cons in Hin as [[=] | Hin]. by apply elem_of_nil in Hin.
Qed.

(** X15. A value that is refused reaches no handler and raises one error
    toast.  A value of white space only, the empty one included, is
    answered with [Enter_a_tag] and the input is emptied; a value that is a
    tag already is answered with [Tag_already_exists] and stays in the
    input. *)
Theorem handleTagTextSubmit_refuses (tagValue : JSString) :
  (Forall (fun c => isWhiteSpace c = true) tagValue →
   handleTagTextSubmit tags t tagValue =
     [dispatchToastMessage "error" (t "Enter_a_tag"); handleTagValue []] ∧
   nextTagValue tagValue (handleTagTextSubmit tags t tagValue) = []) ∧
  (¬ Forall (fun c => isWhiteSpace c = true) tagValue →
   tagValue ∈ tags →
   handleTagTextSubmit tags t tagValue =
     [dispatchToastMessage "error" (t "Tag_already_exists")] ∧
   nextTagValue tagValue (handleTagTextSubmit tags t tagValue) = tagValue).
Proof.
  unfold handleTagTextSubmit. rewrite <- blank_refused. split.
  - intros ->. done.
  - intros Hblank Hin. apply not_true_is_false in Hblank. rewrite Hblank.
    by rewrite bool_decide_eq_true_2.
Qed.

End WithProps.

Lemma handleTagTextSubmit_no_duplicate_witness :
  handler [vipTag; newTag] ∈ handleTagTextSubmit [vipTag] id newTag ∧
  NoDup [vipTag; newTag].
Proof.
  assert (handler [vipTag; newTag] ∈ handleTagTextSubmit [vipTag] id newTag)
    as Hin by (vm_compute; left).
  split; [exact Hin|].
  apply (handleTagTextSubmit_no_duplicate [vipTag] id newTag _
           ltac:(apply NoDup_singleton) Hin).
Defined.

Lemma handleTagTextSubmit_refuses_witness :
  handleTagTextSubmit [vipTag] id blankTag =
    [dispatchToastMessage "error" "Enter_a_tag"; handleTagValue []] ∧
  handleTagTextSubmit [vipTag] id vipTag =
    [dispatchToastMessage "error" "Tag_already_exists"].
Proof.
  split.
  - apply (proj1 (handleTagTextSubmit_refuses [vipTag] id blankTag)).
    repeat constructor.
  - apply (proj2 (handleTagTextSubmit_refuses [vipTag] id vipTag)).
    + intros H. inversion H as [|c s Hc _]. discriminate Hc.
    + left.
Defined.

(** X16. [removeTag] makes one call, of the handler, with the tags in their
    order less every occurrence of the tag to remove; where the tag is not
    among them the handler gets the tags as they are. *)
Theorem removeTag_removes (tags : list JSString) (tagToRemove : JSString) :
  ∃ l, removeTag tags tagToRemove = [handler l] ∧
       (tagToRemove ∉ l) ∧
       (∀ tag, tag ≠ tagToRemove → (tag ∈ l ↔ tag ∈ tags)) ∧
       l `sublist_of` tags ∧
       (tagToRemove ∉ tags → l = tags).
Proof.
  eexists. split; [reflexivity|]. split; [|split; [|split]].
  - rewrite list_elem_of_filter. by intros [H _].
  - intros tag Hne. rewrite list_elem_of_filter. tauto.
  - apply sublist_filter.
  - intros Hnot. induction tags as [|x l IH]; [done|].
    apply not_elem_of_cons in Hnot as [Hne Hnot].
    rewrite filter_cons. case_decide; [|congruence]. by rewrite IH.
Qed.

(** X17. Removing the tag that [handleTagTextSubmit] has just added gives
    the tags there were before: the handler of [removeTag] gets the list
    that the text was submitted to. *)
Theorem removeTag_after_submit
    (tags : list JSString) (t : string → string) (tagValue : JSString)
    (l : list JSString) :
  handler l ∈ handleTagTextSubmit tags t tagValue →
  removeTag l tagValue = [handler tags].
Proof.
  intros Hin. apply handleTagTextSubmit_handler in Hin as [-> Hnot].
  unfold removeTag. rewrite filter_app, filter_cons, filter_nil.
  case_decide; [done|]. rewrite app_nil_r. f_equal. f_equal.
  clear -Hnot. induction tags as [|x l IH]; [done|].
  apply not_elem_of_cons in Hnot as [Hne Hnot].
  rewrite filter_cons. case_decide; [|congruence]. by rewrite IH.
Qed.

Lemma removeTag_after_submit_witness :
  handler [vipTag; newTag] ∈ handleTagTextSubmit [vipTag] id newTag ∧
  removeTag [vipTag; newTag] newTag = [handler [vipTag]].
Proof.
  assert (handler [vipTag; newTag] ∈ handleTagTextSubmit [vipTag] id newTag)
    as Hin by (vm_compute; left).
  split; [exact Hin|].
  exact (removeTag_after_submit [vipTag] id newTag _ Hin).
Defined.

End TagsTheorems.
